(** * q2-diversity-lib: the plugin registration module

    A model of [q2_diversity_lib/plugin_setup.py].  The module is a flat
    sequence of top-level statements: imports, five assignments and twelve
    calls of [plugin.methods.register_function].  Each call builds one
    registration record from type expressions of the framework's
    vocabulary, description strings, example callables and citations. *)

From Stdlib Require Import ZArith String List.
From Stdlib Require Import Floats.SpecFloat.
From stdpp Require Import base option list gmap strings fin_maps.

Set Warnings "-register-all".

Local Open Scope string_scope.
Local Open Scope Z_scope.

(** ** The type vocabulary *)

(** Variants of [q2_types.feature_table.FeatureTable].  The module imports
    the first three; [Composition] is one of the others the package has. *)
Inductive table_variant : Type :=
  | Frequency
  | RelativeFrequency
  | PresenceAbsence
  | Composition.

(** Variants of [q2_types.tree.Phylogeny]; the module imports [Rooted]. *)
Inductive tree_variant : Type :=
  | Rooted
  | Unrooted.

(** Variants of [q2_types.sample_data.SampleData]. *)
Inductive sample_variant : Type :=
  | AlphaDiversity
  | BetaDiversity.

(** Semantic types of inputs and outputs.  A union [a | b | c] of variants
    inside the brackets is the list of its members in source order. *)
Inductive semantic_type : Type :=
  | FeatureTable (variants : list table_variant)
  | Phylogeny (variants : list tree_variant)
  | SampleData (variants : list sample_variant)
  | DistanceMatrix
  | ListOf (elem : semantic_type).

(** Predicates a primitive type is refined by with [%].  [Range(a, b)] has
    [inclusive_start=True] and [inclusive_end=False] unless given. *)
Inductive predicate : Type :=
  | Range (start stop : option Z) (inclusive_start inclusive_end : bool)
  | Choices (choices : list string).

(** Primitive types of parameters: the source's [T % P] is [Refine T P],
    its [a | b] is [Union a b] and its [List[T]] is [List T].  [Set] and
    [Metadata] belong to the framework's vocabulary as well. *)
Inductive primitive : Type :=
  | Int
  | Str
  | Bool
  | Float
  | Metadata
  | Refine (base : primitive) (p : predicate)
  | Union (a b : primitive)
  | List (elem : primitive)
  | Set_ (elem : primitive).

#[global] Instance table_variant_eq_dec : EqDecision table_variant.
Proof. solve_decision. Defined.
#[global] Instance tree_variant_eq_dec : EqDecision tree_variant.
Proof. solve_decision. Defined.
#[global] Instance sample_variant_eq_dec : EqDecision sample_variant.
Proof. solve_decision. Defined.
#[global] Instance predicate_eq_dec : EqDecision predicate.
Proof. solve_decision. Defined.
#[global] Instance primitive_eq_dec : EqDecision primitive.
Proof. solve_decision. Defined.
#[global] Instance semantic_type_eq_dec : EqDecision semantic_type.
Proof. solve_decision. Defined.

(** The names of the vocabulary a primitive type expression is written
    with, as the module imports them from [qiime2.plugin]. *)
Definition predicate_name (p : predicate) : string :=
  match p with
  | Range _ _ _ _ => "Range"
  | Choices _ => "Choices"
  end.

Fixpoint vocabulary (t : primitive) : list string :=
  match t with
  | Int => ["Int"]
  | Str => ["Str"]
  | Bool => ["Bool"]
  | Float => ["Float"]
  | Metadata => ["Metadata"]
  | Refine b p => vocabulary b ++ [predicate_name p]
  | Union a b => vocabulary a ++ vocabulary b
  | List e => "List" :: vocabulary e
  | Set_ e => "Set" :: vocabulary e
  end.

(** ** Parameter values and the framework's validation *)

(** Values a caller can pass for a parameter.  A Python float is a binary
    floating-point datum, with its infinities and NaN. *)
Inductive pyval : Type :=
  | VInt (z : Z)
  | VStr (s : string)
  | VBool (b : bool)
  | VFloat (f : spec_float)
  | VList (l : list pyval)
  | VNone.

(** Exact comparison of a float with an integer bound: a finite float is
    [(-1)^s * m * 2^e]; both sides are scaled by [2^(-e)] when [e < 0]. *)
Definition float_cmp_Z (f : spec_float) (b : Z) : option comparison :=
  match f with
  | S754_nan => None
  | S754_zero _ => Some (0 ?= b)
  | S754_infinity true => Some Lt
  | S754_infinity false => Some Gt
  | S754_finite s m e =>
      let sm := if s then Z.neg m else Z.pos m in
      if 0 <=? e then Some (sm * 2 ^ e ?= b)
      else Some (sm ?= b * 2 ^ (- e))
  end.

(** Modelled from the spec: membership of a value in a declared range or
    choice list, which the framework (not part of this repository) decides
    when it validates a call: integer ranges, string-enumerated choices,
    booleans, floats bounded by the range. *)
Definition above_start (c : option comparison) (inclusive : bool) : bool :=
  match c with
  | Some Gt => true
  | Some Eq => inclusive
  | _ => false
  end.

Definition below_stop (c : option comparison) (inclusive : bool) : bool :=
  match c with
  | Some Lt => true
  | Some Eq => inclusive
  | _ => false
  end.

Definition in_range (cmp : Z -> option comparison)
    (start stop : option Z) (inclusive_start inclusive_end : bool) : bool :=
  match start with
  | Some a => above_start (cmp a) inclusive_start
  | None => true
  end &&
  match stop with
  | Some b => below_stop (cmp b) inclusive_end
  | None => true
  end.

Definition satisfies (p : predicate) (v : pyval) : bool :=
  match p, v with
  | Range a b ia ib, VInt z => in_range (fun k => Some (z ?= k)) a b ia ib
  | Range a b ia ib, VFloat f => in_range (float_cmp_Z f) a b ia ib
  | Choices cs, VStr s => bool_decide (s ∈ cs)
  | _, _ => false
  end.

Fixpoint admits (t : primitive) (v : pyval) : bool :=
  match t with
  | Int => match v with VInt _ => true | _ => false end
  | Str => match v with VStr _ => true | _ => false end
  | Bool => match v with VBool _ => true | _ => false end
  | Float => match v with VFloat _ => true | _ => false end
  | Metadata => false
  | Refine b p => admits b v && satisfies p v
  | Union a b => admits a v || admits b v
  | List e => match v with VList l => forallb (admits e) l | _ => false end
  | Set_ e => match v with VList l => forallb (admits e) l | _ => false end
  end.

(** ** What the module imports from the rest of the package *)

(** A function object: the module that defines it and its [__name__]. *)
Record callable : Type := Callable {
  c_module : string;
  c_name : string
}.

(** An entry of the bibliography: BibTeX entry type and fields. *)
Record CitationRecord : Type := Citation {
  bib_type : string;
  bib_fields : list (string * string)
}.

(** The [METRICS] table of [alpha] and of [beta]: a dict of dicts of
    metric names, read as [METRICS['PHYLO']['UNIMPL']]. *)
Abbreviation metrics := (gmap string (gmap string (list string))).

(** Modelled from the spec: the modules [alpha], [beta] and [examples], the
    file [citations.bib] and [__version__] of this package, and
    [CONSOLIDATIONS] of [unifrac._meta], none of which is among the
    sources.  [alpha], [beta] and [examples] are namespaces of the
    callables they define; [alpha] and [beta] also hold a [METRICS] table. *)
Record Env : Type := {
  version : string;
  alpha_functions : gset string;
  alpha_METRICS : metrics;
  beta_functions : gset string;
  beta_METRICS : metrics;
  examples_functions : gset string;
  citations_bib : gmap string CitationRecord;
  CONSOLIDATIONS : list string
}.

(** ** Exceptions and the error monad *)

(** The exceptions evaluating a top-level statement can raise.  [Raised] is
    an exception a [raise] statement of the module itself would raise. *)
Inductive exn : Type :=
  | NameError (name : string)
  | AttributeError (object attribute : string)
  | KeyError (key : string)
  | TypeError (what : string)
  | FileNotFoundError (path : string)
  | Raised (kind : string).

Definition result (A : Type) : Type := exn + A.

#[global] Instance result_ret : MRet result := fun A x => inr x.
#[global] Instance result_bind : MBind result := fun A B f m =>
  match m with
  | inl e => inl e
  | inr x => f x
  end.

Definition raise {A : Type} (e : exn) : result A := inl e.

(** ** Registration records and the plugin object *)

(** One record per [register_function] call, with the call's keyword
    arguments as fields.  [parameters], [parameter_descriptions] and
    [citations] are [None] where the call passes [None] or leaves the
    keyword out. *)
Record registration : Type := {
  function : callable;
  inputs : list (string * semantic_type);
  parameters : option (list (string * primitive));
  outputs : list (string * semantic_type);
  input_descriptions : list (string * string);
  parameter_descriptions : option (list (string * string));
  output_descriptions : list (string * string);
  name : string;
  description : string;
  examples : list (string * callable);
  citations : option (list CitationRecord)
}.

(** The plugin descriptor.  [plugin_methods] is the [methods] dict of the
    plugin, keyed by the [__name__] of the registered function. *)
Record Plugin : Type := {
  plugin_name : string;
  plugin_version : string;
  plugin_website : string;
  plugin_short_description : string;
  plugin_package : string;
  plugin_description : string;
  plugin_methods : gmap string registration
}.

(** Modelled from the spec: [register_function] of the framework adds the
    record to the plugin's methods under the function's name. *)
Definition register_function (p : Plugin) (r : registration) : Plugin :=
  {| plugin_name := plugin_name p;
     plugin_version := plugin_version p;
     plugin_website := plugin_website p;
     plugin_short_description := plugin_short_description p;
     plugin_package := plugin_package p;
     plugin_description := plugin_description p;
     plugin_methods := <[c_name (function r) := r]> (plugin_methods p) |}.

(** ** The module namespace and its statements *)

(** What a global name of the module can be bound to. *)
Inductive pyobj : Type :=
  | OStr (s : string)
  | OImported (module name : string)
  | OCitations (store : gmap string CitationRecord)
  | OPlugin (p : Plugin)
  | OClass (name : string) (bases : list string).

Abbreviation namespace := (gmap string pyobj).

(** Top-level statements.  The right-hand side of an assignment and the
    keyword arguments of a registration call are evaluated in the
    environment and the namespace, and may raise. *)
Inductive stmt : Type :=
  | ImportFrom (module : string) (names : list string)
  | Assign (target : string) (value : Env -> namespace -> result pyobj)
  | RegisterFunction (receiver : string)
      (kwargs : Env -> namespace -> result registration)
  | Delete (target : string)
  | ClassDef (name : string) (bases : list string)
  | Raise (e : exn)
  | Try (body handler : list stmt).

(** Running a statement gives the namespace it leaves and the exception it
    raised, if any: what was bound before the exception stays bound.  An
    import binds its names: the modules the file imports from are taken to
    exist, and [Env] says what the package's own hold.  What can raise here
    is a lookup the statement makes: of a name, an attribute or a key. *)
Fixpoint exec (env : Env) (s : stmt) (g : namespace) : namespace * option exn :=
  match s with
  | ImportFrom m names =>
      (foldl (fun g n => <[n := OImported m n]> g) g names, None)
  | Assign x value =>
      match value env g with
      | inl e => (g, Some e)
      | inr o => (<[x := o]> g, None)
      end
  | RegisterFunction receiver kwargs =>
      match g !! receiver with
      | None => (g, Some (NameError receiver))
      | Some (OPlugin p) =>
          match kwargs env g with
          | inl e => (g, Some e)
          | inr r => (<[receiver := OPlugin (register_function p r)]> g, None)
          end
      | Some _ => (g, Some (AttributeError receiver "methods"))
      end
  | Delete x =>
      match g !! x with
      | None => (g, Some (NameError x))
      | Some _ => (delete x g, None)
      end
  | ClassDef n bases => (<[n := OClass n bases]> g, None)
  | Raise e => (g, Some e)
  | Try body handler =>
      let run := fix run (l : list stmt) (g : namespace) :=
        match l with
        | [] => (g, None)
        | s :: l' =>
            match exec env s g with
            | (g', None) => run l' g'
            | r => r
            end
        end in
      match run body g with
      | (g', Some _) => run handler g'
      | r => r
      end
  end.

Fixpoint exec_block (env : Env) (l : list stmt) (g : namespace)
    : namespace * option exn :=
  match l with
  | [] => (g, None)
  | s :: l' =>
      match exec env s g with
      | (g', None) => exec_block env l' g'
      | r => r
      end
  end.

(** ** Name resolution in the call arguments *)

Definition global (g : namespace) (x : string) : result pyobj :=
  match g !! x with
  | Some o => mret o
  | None => raise (NameError x)
  end.

(** A module-level string, as [threads_description]. *)
Definition global_str (g : namespace) (x : string) : result string :=
  o ← global g x;
  match o with
  | OStr s => mret s
  | _ => raise (TypeError x)
  end.

(** [m.f] for an imported module [m] of the package: the name [m] must be
    bound by the import, and [f] defined in the module. *)
Definition module_functions (env : Env) (m : string) : gset string :=
  if decide (m = "alpha") then alpha_functions env
  else if decide (m = "beta") then beta_functions env
  else if decide (m = "examples") then examples_functions env
  else ∅.

Definition attr (env : Env) (g : namespace) (m f : string) : result callable :=
  o ← global g m;
  match o with
  | OImported "." m' =>
      if decide (f ∈ module_functions env m') then mret (Callable m' f)
      else raise (AttributeError m f)
  | _ => raise (AttributeError m f)
  end.

(** [m.METRICS[k1][k2]]. *)
Definition module_METRICS (env : Env) (m : string) : option metrics :=
  if decide (m = "alpha") then Some (alpha_METRICS env)
  else if decide (m = "beta") then Some (beta_METRICS env)
  else None.

Definition METRICS (env : Env) (g : namespace) (m k1 k2 : string)
    : result (list string) :=
  o ← global g m;
  match o with
  | OImported "." m' =>
      match module_METRICS env m' with
      | None => raise (AttributeError m "METRICS")
      | Some t =>
          match t !! k1 with
          | None => raise (KeyError k1)
          | Some d =>
              match d !! k2 with
              | None => raise (KeyError k2)
              | Some l => mret l
              end
          end
      end
  | _ => raise (AttributeError m "METRICS")
  end.

(** [citations[key]]. *)
Definition cite (g : namespace) (key : string) : result CitationRecord :=
  o ← global g "citations";
  match o with
  | OCitations store =>
      match store !! key with
      | Some c => mret c
      | None => raise (KeyError key)
      end
  | _ => raise (TypeError "citations")
  end.

(** A name imported from another package, as [CONSOLIDATIONS] and
    [__version__]: it must be bound by its import. *)
Definition imported (g : namespace) (x : string) : result unit :=
  o ← global g x;
  match o with
  | OImported _ _ => mret tt
  | _ => raise (TypeError x)
  end.

(** ** The module *)

(** Line 20: [Citations.load('citations.bib', package='q2_diversity_lib')]. *)
Definition Citations_load (path package : string) (env : Env) (g : namespace)
    : result pyobj :=
  _ ← imported g "Citations";
  if decide (path = "citations.bib" ∧ package = "q2_diversity_lib")
  then mret (OCitations (citations_bib env))
  else raise (FileNotFoundError path).

(** Lines 21-29: [plugin = Plugin(...)]. *)
Definition new_Plugin (env : Env) (g : namespace) : result pyobj :=
  _ ← imported g "Plugin";
  _ ← imported g "__version__";
  mret (OPlugin {|
    plugin_name := "diversity-lib";
    plugin_version := version env;
    plugin_website := "https://github.com/qiime2/q2-diversity-lib";
    plugin_short_description := "Plugin for computing community diversity.";
    plugin_package := "q2_diversity_lib";
    plugin_description :=
      "This QIIME 2 plugin computes individual metrics for " +:+
      " community alpha and beta diversity.";
    plugin_methods := ∅
  |}).

(** Lines 31-36. *)
Definition n_jobs_description : string :=
  "The number of concurrent jobs to use in performing this calculation. " +:+
  "May not exceed the number of available physical cores. If n_jobs = " +:+
  "'auto', one job will be launched for each identified CPU core on the " +:+
  "host.".

(** Lines 38-43. *)
Definition threads_description : string :=
  "The number of CPU threads to use in performing this calculation. " +:+
  "May not exceed the number of available physical cores. If threads = " +:+
  "'auto', one thread will be created for each identified CPU core on the " +:+
  "host.".

(** Lines 45-51. *)
Definition drop_undef_samples_description : string :=
  "When calculating some metrics, samples with fewer than a predetermined " +:+
  "number of features produce undefined (NaN) values. If true, affected " +:+
  "samples are dropped from metrics with 'drop_undefined_samples' " +:+
  "implemented. For metrics without a 'drop_undefined_samples' parameter, " +:+
  "this value will be ignored and no samples will be dropped.".

(** Lines 54-79: [plugin.methods.register_function(function=alpha.faith_pd, ...)]. *)
Definition register_faith_pd (env : Env) (g : namespace) : result registration :=
  function_ ← attr env g "alpha" "faith_pd";
  threads_description ← global_str g "threads_description";
  example1 ← attr env g "examples" "faith_pd_example";
  citation1 ← cite g "faith1992conservation";
  citation2 ← cite g "armstrong2021faithspd";
  mret {|
    function := function_;
    inputs :=
      [ ("table", FeatureTable [Frequency; RelativeFrequency; PresenceAbsence]);
        ("phylogeny", Phylogeny [Rooted]) ];
    parameters := Some (
      [ ("threads", Union (Refine Int (Range (Some 1) None true false))
                 (Refine Str (Choices ["auto"]))) ]);
    outputs :=
      [ ("vector", SampleData [AlphaDiversity]) ];
    input_descriptions :=
      [ ("table",
         "The feature table containing the samples for which Faith's " +:+
         "phylogenetic diversity should be computed. Table values " +:+
         "will be converted to presence/absence.");
        ("phylogeny",
         "Phylogenetic tree containing tip identifiers that " +:+
         "correspond to the feature identifiers in the table. " +:+
         "This tree can contain tip ids that are not present in " +:+
         "the table, but all feature ids in the table must be " +:+
         "present in this tree.") ];
    parameter_descriptions := Some (
      [ ("threads",
         threads_description) ]);
    output_descriptions :=
      [ ("vector",
         "Vector containing per-sample values for " +:+
         "Faith's Phylogenetic Diversity.") ];
    name :=
      "Faith's Phylogenetic Diversity";
    description :=
      "Computes Faith's Phylogenetic Diversity for all samples in " +:+
      "a feature table.";
    examples :=
      [ ("basic",
         example1) ];
    citations :=
      Some [citation1; citation2]
  |}.

(** Lines 81-98: [plugin.methods.register_function(function=alpha.observed_features, ...)]. *)
Definition register_observed_features (env : Env) (g : namespace) : result registration :=
  function_ ← attr env g "alpha" "observed_features";
  example1 ← attr env g "examples" "observed_features_example";
  mret {|
    function := function_;
    inputs :=
      [ ("table", FeatureTable [Frequency; RelativeFrequency; PresenceAbsence]) ];
    parameters := None;
    outputs :=
      [ ("vector", SampleData [AlphaDiversity]) ];
    input_descriptions :=
      [ ("table",
         "The feature table containing the samples " +:+
         "for which the number of observed features should be " +:+
         "calculated. Table values will be converted to " +:+
         "presence/absence.") ];
    parameter_descriptions := None;
    output_descriptions :=
      [ ("vector",
         "Vector containing per-sample counts of " +:+
         "observed features.") ];
    name :=
      "Observed Features";
    description :=
      "Compute the number of observed features for each sample in a " +:+
      "feature table";
    examples :=
      [ ("basic",
         example1) ];
    citations := None
  |}.

(** Lines 100-119: [plugin.methods.register_function(function=alpha.pielou_evenness, ...)]. *)
Definition register_pielou_evenness (env : Env) (g : namespace) : result registration :=
  function_ ← attr env g "alpha" "pielou_evenness";
  example1 ← attr env g "examples" "pielou_evenness_example";
  example2 ← attr env g "examples" "pielou_drop_example";
  citation1 ← cite g "pielou1966measurement";
  mret {|
    function := function_;
    inputs :=
      [ ("table", FeatureTable [Frequency; RelativeFrequency]) ];
    parameters := Some (
      [ ("drop_undefined_samples", Bool) ]);
    outputs :=
      [ ("vector", SampleData [AlphaDiversity]) ];
    input_descriptions :=
      [ ("table",
         "The feature table containing the samples " +:+
         "for which Pielou's evenness should be computed.") ];
    parameter_descriptions := Some (
      [ ("drop_undefined_samples",
         "Samples with fewer than" +:+
         " two observed features produce undefined (NaN) " +:+
         "values. If true, these samples are dropped " +:+
         "from the output vector.") ]);
    output_descriptions :=
      [ ("vector",
         "Vector containing per-sample values " +:+
         "for Pielou's Evenness.") ];
    name :=
      "Pielou's Evenness";
    description :=
      "Compute Pielou's Evenness for each sample in a " +:+
      "feature table";
    examples :=
      [ ("basic",
         example1);
        ("dropping undefined samples",
         example2) ];
    citations :=
      Some [citation1]
  |}.

(** Lines 122-141: [plugin.methods.register_function(function=alpha.shannon_entropy, ...)]. *)
Definition register_shannon_entropy (env : Env) (g : namespace) : result registration :=
  function_ ← attr env g "alpha" "shannon_entropy";
  example1 ← attr env g "examples" "shannon_entropy_example";
  example2 ← attr env g "examples" "shannon_drop_example";
  citation1 ← cite g "shannon1948communication";
  mret {|
    function := function_;
    inputs :=
      [ ("table", FeatureTable [Frequency; RelativeFrequency]) ];
    parameters := Some (
      [ ("drop_undefined_samples", Bool) ]);
    outputs :=
      [ ("vector", SampleData [AlphaDiversity]) ];
    input_descriptions :=
      [ ("table",
         "The feature table containing the samples " +:+
         "for which Shannon's Entropy should be computed.") ];
    parameter_descriptions := Some (
      [ ("drop_undefined_samples",
         "Samples with no " +:+
         "observed features produce undefined (NaN) values." +:+
         " If true, these samples are dropped from the " +:+
         "output vector.") ]);
    output_descriptions :=
      [ ("vector",
         "Vector containing per-sample values " +:+
         "for Shannon's Entropy.") ];
    name :=
      "Shannon's Entropy";
    description :=
      "Compute Shannon's Entropy for each sample in a " +:+
      "feature table";
    examples :=
      [ ("basic",
         example1);
        ("dropping undefined samples",
         example2) ];
    citations :=
      Some [citation1]
  |}.

(** Lines 146-170: [plugin.methods.register_function(function=beta.bray_curtis, ...)]. *)
Definition register_bray_curtis (env : Env) (g : namespace) : result registration :=
  function_ ← attr env g "beta" "bray_curtis";
  n_jobs_description ← global_str g "n_jobs_description";
  example1 ← attr env g "examples" "bray_curtis_example";
  example2 ← attr env g "examples" "bray_curtis_n_jobs_example";
  example3 ← attr env g "examples" "bray_curtis_auto_jobs_example";
  citation1 ← cite g "sorensen1948method";
  mret {|
    function := function_;
    inputs :=
      [ ("table", FeatureTable [Frequency; RelativeFrequency]) ];
    parameters := Some (
      [ ("n_jobs", Union (Refine Int (Range (Some 1) None true false))
                 (Refine Str (Choices ["auto"]))) ]);
    outputs :=
      [ ("distance_matrix", DistanceMatrix) ];
    input_descriptions :=
      [ ("table",
         "The feature table containing the samples for which " +:+
         "Bray-Curtis dissimilarity should be computed.") ];
    parameter_descriptions := Some (
      [ ("n_jobs",
         n_jobs_description) ]);
    output_descriptions :=
      [ ("distance_matrix",
         "Distance matrix for Bray-Curtis dissimilarity") ];
    name :=
      "Bray-Curtis Dissimilarity";
    description :=
      "Compute Bray-Curtis dissimilarity for each sample in a " +:+
      "feature table. Note: Frequency and relative frequency data " +:+
      "produce different results unless overall sample sizes are " +:+
      "identical. Please consider the impact on your results if " +:+
      "you use Bray-Curtis with count data that has not been " +:+
      "adjusted (normalized).";
    examples :=
      [ ("run on one core (by default)",
         example1);
        ("to run on n cores, replace 1 here with your preferred integer",
         example2);
        ("use 'auto' to run on all of host system's available CPU cores",
         example3) ];
    citations :=
      Some [citation1]
  |}.

(** Lines 173-197: [plugin.methods.register_function(function=beta.jaccard, ...)]. *)
Definition register_jaccard (env : Env) (g : namespace) : result registration :=
  function_ ← attr env g "beta" "jaccard";
  n_jobs_description ← global_str g "n_jobs_description";
  example1 ← attr env g "examples" "jaccard_example";
  example2 ← attr env g "examples" "jaccard_n_jobs_example";
  example3 ← attr env g "examples" "jaccard_auto_jobs_example";
  citation1 ← cite g "jaccard1908nouvelles";
  mret {|
    function := function_;
    inputs :=
      [ ("table", FeatureTable [Frequency; RelativeFrequency; PresenceAbsence]) ];
    parameters := Some (
      [ ("n_jobs", Union (Refine Int (Range (Some 1) None true false))
                 (Refine Str (Choices ["auto"]))) ]);
    outputs :=
      [ ("distance_matrix", DistanceMatrix) ];
    input_descriptions :=
      [ ("table",
         "The feature table containing the samples for which " +:+
         "Jaccard distance should be computed.") ];
    parameter_descriptions := Some (
      [ ("n_jobs",
         n_jobs_description) ]);
    output_descriptions :=
      [ ("distance_matrix",
         "Distance matrix for Jaccard index") ];
    name :=
      "Jaccard Distance";
    description :=
      "Compute Jaccard distance for each sample " +:+
      "in a feature table. Jaccard is calculated using" +:+
      "presence/absence data. Data of type " +:+
      "FeatureTable[Frequency | Relative Frequency] is reduced" +:+
      "to presence/absence prior to calculation.";
    examples :=
      [ ("run on one core (by default)",
         example1);
        ("to run on n cores, replace 1 here with your preferred integer",
         example2);
        ("use 'auto' to run on all of host system's available CPU cores",
         example3) ];
    citations :=
      Some [citation1]
  |}.

(** Lines 200-243: [plugin.methods.register_function(function=beta.unweighted_unifrac, ...)]. *)
Definition register_unweighted_unifrac (env : Env) (g : namespace) : result registration :=
  function_ ← attr env g "beta" "unweighted_unifrac";
  threads_description ← global_str g "threads_description";
  example1 ← attr env g "examples" "u_u_example";
  example2 ← attr env g "examples" "u_u_n_threads_example";
  example3 ← attr env g "examples" "u_u_auto_threads_example";
  example4 ← attr env g "examples" "u_u_bypass_tips_example";
  citation1 ← cite g "lozupone2005unifrac";
  citation2 ← cite g "lozupone2007unifrac";
  citation3 ← cite g "hamady2010unifrac";
  citation4 ← cite g "lozupone2011unifrac";
  citation5 ← cite g "mcdonald2018unifrac";
  mret {|
    function := function_;
    inputs :=
      [ ("table", FeatureTable [Frequency; RelativeFrequency; PresenceAbsence]);
        ("phylogeny", Phylogeny [Rooted]) ];
    parameters := Some (
      [ ("threads", Union (Refine Int (Range (Some 1) None true false))
                 (Refine Str (Choices ["auto"])));
        ("bypass_tips", Bool) ]);
    outputs :=
      [ ("distance_matrix", DistanceMatrix) ];
    input_descriptions :=
      [ ("table",
         "The feature table containing the samples for which " +:+
         "Unweighted Unifrac should be computed.");
        ("phylogeny",
         "Phylogenetic tree containing tip identifiers that " +:+
         "correspond to the feature identifiers in the table. " +:+
         "This tree can contain tip ids that are not present in " +:+
         "the table, but all feature ids in the table must be " +:+
         "present in this tree.") ];
    parameter_descriptions := Some (
      [ ("threads",
         threads_description);
        ("bypass_tips",
         "In a bifurcating tree, the tips make up about 50% of " +:+
         "the nodes in a tree. By ignoring them, specificity " +:+
         "can be traded for reduced compute time. This has the" +:+
         " effect of collapsing the phylogeny, and is analogous" +:+
         " (in concept) to moving from 99% to 97% OTUs") ]);
    output_descriptions :=
      [ ("distance_matrix",
         "Distance matrix for Unweighted " +:+
         "Unifrac.") ];
    name :=
      "Unweighted Unifrac";
    description :=
      "Compute Unweighted Unifrac for each sample in a " +:+
      "feature table";
    examples :=
      [ ("run on one core (by default)",
         example1);
        ("to run on n cores, replace 1 here with your preferred integer",
         example2);
        ("use 'auto' to run on all of host system's available CPU cores",
         example3);
        ("use bypass_tips to trade specificity for reduced compute time",
         example4) ];
    citations :=
      Some [citation1; citation2; citation3; citation4; citation5]
  |}.

(** Lines 245-287: [plugin.methods.register_function(function=beta.weighted_unifrac, ...)]. *)
Definition register_weighted_unifrac (env : Env) (g : namespace) : result registration :=
  function_ ← attr env g "beta" "weighted_unifrac";
  threads_description ← global_str g "threads_description";
  example1 ← attr env g "examples" "w_u_example";
  example2 ← attr env g "examples" "w_u_n_threads_example";
  example3 ← attr env g "examples" "w_u_auto_threads_example";
  example4 ← attr env g "examples" "w_u_bypass_tips_example";
  citation1 ← cite g "lozupone2005unifrac";
  citation2 ← cite g "lozupone2007unifrac";
  citation3 ← cite g "hamady2010unifrac";
  citation4 ← cite g "lozupone2011unifrac";
  citation5 ← cite g "mcdonald2018unifrac";
  mret {|
    function := function_;
    inputs :=
      [ ("table", FeatureTable [Frequency; RelativeFrequency]);
        ("phylogeny", Phylogeny [Rooted]) ];
    parameters := Some (
      [ ("threads", Union (Refine Int (Range (Some 1) None true false))
                 (Refine Str (Choices ["auto"])));
        ("bypass_tips", Bool) ]);
    outputs :=
      [ ("distance_matrix", DistanceMatrix) ];
    input_descriptions :=
      [ ("table",
         "The feature table containing the samples for which " +:+
         "Weighted Unifrac should be computed.");
        ("phylogeny",
         "Phylogenetic tree containing tip identifiers that " +:+
         "correspond to the feature identifiers in the table. " +:+
         "This tree can contain tip ids that are not present in " +:+
         "the table, but all feature ids in the table must be " +:+
         "present in this tree.") ];
    parameter_descriptions := Some (
      [ ("threads",
         threads_description);
        ("bypass_tips",
         "In a bifurcating tree, the tips make up about 50% of " +:+
         "the nodes in a tree. By ignoring them, specificity " +:+
         "can be traded for reduced compute time. This has the" +:+
         " effect of collapsing the phylogeny, and is analogous" +:+
         " (in concept) to moving from 99% to 97% OTUs") ]);
    output_descriptions :=
      [ ("distance_matrix",
         "Distance matrix for Unweighted " +:+
         "Unifrac.") ];
    name :=
      "Weighted Unifrac";
    description :=
      "Compute Weighted Unifrac for each sample in a " +:+
      "feature table";
    examples :=
      [ ("run on one core (by default)",
         example1);
        ("to run on n cores, replace 1 here with your preferred integer",
         example2);
        ("use 'auto' to run on all of host system's available CPU cores",
         example3);
        ("use bypass_tips to trade specificity for reduced compute time",
         example4) ];
    citations :=
      Some [citation1; citation2; citation3; citation4; citation5]
  |}.

(** Lines 290-306: [plugin.methods.register_function(function=alpha.alpha_passthrough, ...)]. *)
Definition register_alpha_passthrough (env : Env) (g : namespace) : result registration :=
  function_ ← attr env g "alpha" "alpha_passthrough";
  metrics1 ← METRICS env g "alpha" "NONPHYLO" "UNIMPL";
  example1 ← attr env g "examples" "alpha_passthrough_example";
  mret {|
    function := function_;
    inputs :=
      [ ("table", FeatureTable [Frequency]) ];
    parameters := Some (
      [ ("metric", Refine Str (Choices metrics1)) ]);
    outputs :=
      [ ("vector", SampleData [AlphaDiversity]) ];
    input_descriptions :=
      [ ("table",
         "The feature table containing the samples " +:+
         "for which a selected metric should be computed.") ];
    parameter_descriptions := Some (
      [ ("metric",
         "The alpha diversity metric to be computed.") ]);
    output_descriptions :=
      [ ("vector",
         "Vector containing per-sample values " +:+
         "for the chosen metric.") ];
    name :=
      "Alpha Passthrough (non-phylogenetic)";
    description :=
      "Computes a vector of values (one value for each samples in a " +:+
      "feature table) using the scikit-bio implementation of the " +:+
      "selected alpha diversity metric.";
    examples :=
      [ ("basic",
         example1) ];
    citations := None
  |}.

(** Lines 309-342: [plugin.methods.register_function(function=beta.beta_passthrough, ...)]. *)
Definition register_beta_passthrough (env : Env) (g : namespace) : result registration :=
  function_ ← attr env g "beta" "beta_passthrough";
  metrics1 ← METRICS env g "beta" "NONPHYLO" "UNIMPL";
  n_jobs_description ← global_str g "n_jobs_description";
  example1 ← attr env g "examples" "beta_passthrough_example";
  example2 ← attr env g "examples" "beta_passthrough_n_jobs_example";
  example3 ← attr env g "examples" "beta_passthrough_auto_jobs_example";
  example4 ← attr env g "examples" "beta_passthrough_pseudocount_example";
  mret {|
    function := function_;
    inputs :=
      [ ("table", FeatureTable [Frequency]) ];
    parameters := Some (
      [ ("metric", Refine Str (Choices metrics1));
        ("pseudocount", Refine Int (Range (Some 1) None true false));
        ("n_jobs", Union (Refine Int (Range (Some 1) None true false))
                 (Refine Str (Choices ["auto"]))) ]);
    outputs :=
      [ ("distance_matrix", DistanceMatrix) ];
    input_descriptions :=
      [ ("table",
         "The feature table containing the samples over which beta " +:+
         "diversity should be computed.") ];
    parameter_descriptions := Some (
      [ ("metric",
         "The beta diversity metric to be computed.");
        ("pseudocount",
         "A pseudocount to handle zeros for compositional " +:+
         "metrics. This is ignored for non-compositional " +:+
         "metrics.");
        ("n_jobs",
         n_jobs_description) ]);
    output_descriptions :=
      [ ("distance_matrix",
         "The resulting distance matrix.") ];
    name :=
      "Beta Passthrough (non-phylogenetic)";
    description :=
      "Computes a distance matrix for all pairs of samples in a " +:+
      "feature table using the scikit-bio implementation of the " +:+
      "selected beta diversity metric.";
    examples :=
      [ ("run on one core (by default)",
         example1);
        ("to run on n cores, replace 1 here with your preferred integer",
         example2);
        ("use 'auto' to run on all of host system's available CPU cores",
         example3);
        ("use 'pseudocount' to manually set a pseudocount for " +:+
         "compositional metrics",
         example4) ];
    citations := None
  |}.

(** Lines 345-413: [plugin.methods.register_function(function=beta.beta_phylogenetic_passthrough, ...)]. *)
Definition register_beta_phylogenetic_passthrough (env : Env) (g : namespace) : result registration :=
  function_ ← attr env g "beta" "beta_phylogenetic_passthrough";
  metrics1 ← METRICS env g "beta" "PHYLO" "UNIMPL";
  threads_description ← global_str g "threads_description";
  example1 ← attr env g "examples" "beta_phylo_passthrough_example";
  example2 ← attr env g "examples" "beta_phylo_passthrough_n_threads_example";
  example3 ← attr env g "examples" "beta_phylo_passthrough_auto_threads_example";
  example4 ← attr env g "examples" "beta_phylo_passthrough_bypass_tips_example";
  example5 ← attr env g "examples" "beta_phylo_passthrough_variance_adjusted_example";
  example6 ← attr env g "examples" "beta_phylo_passthrough_min_generalized_unifrac_example";
  example7 ← attr env g "examples" "beta_phylo_passthrough_generalized_unifrac_example";
  citation1 ← cite g "lozupone2005unifrac";
  citation2 ← cite g "lozupone2007unifrac";
  citation3 ← cite g "hamady2010unifrac";
  citation4 ← cite g "lozupone2011unifrac";
  citation5 ← cite g "mcdonald2018unifrac";
  citation6 ← cite g "chang2011variance";
  citation7 ← cite g "chen2012genUnifrac";
  citation8 ← cite g "sfiligoi2022unifrac";
  mret {|
    function := function_;
    inputs :=
      [ ("table", FeatureTable [Frequency]);
        ("phylogeny", Phylogeny [Rooted]) ];
    parameters := Some (
      [ ("metric", Refine Str (Choices metrics1));
        ("threads", Union (Refine Int (Range (Some 1) None true false))
                 (Refine Str (Choices ["auto"])));
        ("variance_adjusted", Bool);
        ("alpha", Refine Float (Range (Some 0) (Some 1) true true));
        ("bypass_tips", Bool) ]);
    outputs :=
      [ ("distance_matrix", DistanceMatrix) ];
    input_descriptions :=
      [ ("table",
         "The feature table containing the samples over which beta " +:+
         "diversity should be computed.");
        ("phylogeny",
         "Phylogenetic tree containing tip identifiers that " +:+
         "correspond to the feature identifiers in the table. " +:+
         "This tree can contain tip ids that are not present in " +:+
         "the table, but all feature ids in the table must be " +:+
         "present in this tree.") ];
    parameter_descriptions := Some (
      [ ("metric",
         "The beta diversity metric to be computed.");
        ("threads",
         threads_description);
        ("variance_adjusted",
         "Perform variance adjustment based on Chang et " +:+
         "al. BMC Bioinformatics 2011. Weights distances " +:+
         "based on the proportion of the relative " +:+
         "abundance represented between the samples at a" +:+
         " given node under evaluation.");
        ("alpha",
         "This parameter is only used when the choice of metric is " +:+
         "generalized_unifrac. The value of alpha controls importance" +:+
         " of sample proportions. 1.0 is weighted normalized UniFrac." +:+
         " 0.0 is close to unweighted UniFrac, but only if the sample" +:+
         " proportions are dichotomized.");
        ("bypass_tips",
         "In a bifurcating tree, the tips make up about 50% of " +:+
         "the nodes in a tree. By ignoring them, specificity " +:+
         "can be traded for reduced compute time. This has the " +:+
         "effect of collapsing the phylogeny, and is analogous " +:+
         "(in concept) to moving from 99% to 97% OTUs") ]);
    output_descriptions :=
      [ ("distance_matrix",
         "The resulting distance matrix.") ];
    name :=
      "Beta Phylogenetic Passthrough";
    description :=
      "Computes a distance matrix for all pairs of samples in a " +:+
      "feature table using the unifrac implementation of the " +:+
      "selected beta diversity metric.";
    examples :=
      [ ("run on one core (by default)",
         example1);
        ("to run on n cores, replace 1 here with your preferred integer",
         example2);
        ("use 'auto' to run on all of host system's available CPU cores",
         example3);
        ("use bypass_tips to trade specificity for reduced compute time",
         example4);
        ("variance adjustment",
         example5);
        ("minimal generalized unifrac",
         example6);
        ("generalized unifrac",
         example7) ];
    citations :=
      Some [citation1; citation2; citation3; citation4; citation5; citation6; citation7; citation8]
  |}.

(** Lines 416-483: [plugin.methods.register_function(function=beta.beta_phylogenetic_meta_passthrough, ...)]. *)
Definition register_beta_phylogenetic_meta_passthrough (env : Env) (g : namespace) : result registration :=
  function_ ← attr env g "beta" "beta_phylogenetic_meta_passthrough";
  metrics1 ← METRICS env g "beta" "PHYLO" "UNIMPL";
  _ ← imported g "CONSOLIDATIONS";
  threads_description ← global_str g "threads_description";
  example1 ← attr env g "examples" "beta_phylo_meta_passthrough_example";
  example2 ← attr env g "examples" "beta_phylo_meta_weights_example";
  example3 ← attr env g "examples" "beta_phylo_meta_consolidation_example";
  citation1 ← cite g "lozupone2005unifrac";
  citation2 ← cite g "lozupone2007unifrac";
  citation3 ← cite g "hamady2010unifrac";
  citation4 ← cite g "lozupone2011unifrac";
  citation5 ← cite g "mcdonald2018unifrac";
  citation6 ← cite g "chang2011variance";
  citation7 ← cite g "chen2012genUnifrac";
  citation8 ← cite g "lozupone2008metaunifrac";
  mret {|
    function := function_;
    inputs :=
      [ ("tables", ListOf (FeatureTable [Frequency]));
        ("phylogenies", ListOf (Phylogeny [Rooted])) ];
    parameters := Some (
      [ ("metric", Refine Str (Choices metrics1));
        ("threads", Union (Refine Int (Range (Some 1) None true false))
                 (Refine Str (Choices ["auto"])));
        ("variance_adjusted", Bool);
        ("alpha", Refine Float (Range (Some 0) (Some 1) true true));
        ("bypass_tips", Bool);
        ("weights", List Float);
        ("consolidation", Refine Str (Choices (CONSOLIDATIONS env))) ]);
    outputs :=
      [ ("distance_matrix", DistanceMatrix) ];
    input_descriptions :=
      [ ("tables",
         "The feature tables containing the samples over which beta " +:+
         "diversity should be computed.");
        ("phylogenies",
         "Phylogenetic trees containing tip identifiers that " +:+
         "correspond to the feature identifiers in the table. " +:+
         "This tree can contain tip ids that are not present in " +:+
         "the table, but all feature ids in the table must be " +:+
         "present in this tree.") ];
    parameter_descriptions := Some (
      [ ("metric",
         "The beta diversity metric to be computed.");
        ("threads",
         threads_description);
        ("variance_adjusted",
         "Perform variance adjustment based on Chang et " +:+
         "al. BMC Bioinformatics 2011. Weights distances " +:+
         "based on the proportion of the relative " +:+
         "abundance represented between the samples at a" +:+
         " given node under evaluation.");
        ("alpha",
         "This parameter is only used when the choice of metric is " +:+
         "generalized_unifrac. The value of alpha controls importance" +:+
         " of sample proportions. 1.0 is weighted normalized UniFrac." +:+
         " 0.0 is close to unweighted UniFrac, but only if the sample" +:+
         " proportions are dichotomized.");
        ("bypass_tips",
         "In a bifurcating tree, the tips make up about 50% of " +:+
         "the nodes in a tree. By ignoring them, specificity " +:+
         "can be traded for reduced compute time. This has the " +:+
         "effect of collapsing the phylogeny, and is analogous " +:+
         "(in concept) to moving from 99% to 97% OTUs");
        ("weights",
         "The weight applied to each tree/table pair. This tuple is " +:+
         "expected to be in index order with tables and phylogenies." +:+
         " Default is to weight each tree/table pair evenly.");
        ("consolidation",
         "The matrix consolidation method, which determines " +:+
         "how the individual distance matrices are " +:+
         "aggregated") ]);
    output_descriptions :=
      [ ("distance_matrix",
         "The resulting distance matrix.") ];
    name :=
      "Beta Phylogenetic Meta Passthrough";
    description :=
      "Computes a distance matrix for all pairs of samples in the " +:+
      "set of feature table and phylogeny pairs, using the unifrac " +:+
      "implementation of the selected beta diversity metric.";
    examples :=
      [ ("Basic meta unifrac",
         example1);
        ("meta with weights",
         example2);
        ("changing the consolidation method",
         example3) ];
    citations :=
      Some [citation1; citation2; citation3; citation4; citation5; citation6; citation7; citation8]
  |}.

(** The module body, statement by statement. *)
Definition plugin_setup : list stmt :=
  [ ImportFrom "qiime2.plugin" ["Plugin"; "Citations"; "Bool"; "Int"; "Range"; "Choices"; "Str"; "Float"; "List"];
    ImportFrom "q2_types.feature_table" ["FeatureTable"; "Frequency"; "RelativeFrequency"; "PresenceAbsence"];
    ImportFrom "q2_types.tree" ["Phylogeny"; "Rooted"];
    ImportFrom "q2_types.sample_data" ["AlphaDiversity"; "SampleData"];
    ImportFrom "q2_types.distance_matrix" ["DistanceMatrix"];
    ImportFrom "unifrac._meta" ["CONSOLIDATIONS"];
    ImportFrom "." ["alpha"; "beta"; "__version__"; "examples"];
    Assign "citations" (Citations_load "citations.bib" "q2_diversity_lib");
    Assign "plugin" new_Plugin;
    Assign "n_jobs_description" (fun _ _ => mret (OStr n_jobs_description));
    Assign "threads_description" (fun _ _ => mret (OStr threads_description));
    Assign "drop_undef_samples_description" (fun _ _ => mret (OStr drop_undef_samples_description));
    RegisterFunction "plugin" register_faith_pd;
    RegisterFunction "plugin" register_observed_features;
    RegisterFunction "plugin" register_pielou_evenness;
    RegisterFunction "plugin" register_shannon_entropy;
    RegisterFunction "plugin" register_bray_curtis;
    RegisterFunction "plugin" register_jaccard;
    RegisterFunction "plugin" register_unweighted_unifrac;
    RegisterFunction "plugin" register_weighted_unifrac;
    RegisterFunction "plugin" register_alpha_passthrough;
    RegisterFunction "plugin" register_beta_passthrough;
    RegisterFunction "plugin" register_beta_phylogenetic_passthrough;
    RegisterFunction "plugin" register_beta_phylogenetic_meta_passthrough ].

(** ** Loading the module *)

(** The registration calls of a block, in source order. *)
Definition registration_calls (l : list stmt)
    : list (Env -> namespace -> result registration) :=
  flat_map (fun s =>
    match s with
    | RegisterFunction _ kwargs => [kwargs]
    | _ => []
    end) l.

(** Importing the module runs its body in an empty namespace. *)
Definition load (env : Env) : namespace * option exn :=
  exec_block env plugin_setup ∅.

(** The namespace after at most [n] statements of the body have run. *)
Definition namespace_after (env : Env) (n : nat) : namespace :=
  (exec_block env (take n plugin_setup) ∅).1.

Definition plugin_of (g : namespace) : option Plugin :=
  match g !! "plugin" with
  | Some (OPlugin p) => Some p
  | _ => None
  end.

(** The records of the plugin the import leaves behind, also when an
    exception ended it early. *)
Definition registered (env : Env) : gmap string registration :=
  match plugin_of (load env).1 with
  | Some p => plugin_methods p
  | None => ∅
  end.

(** [d[k]] and [d.keys()] for a dict literal kept as its item list. *)
Fixpoint dict_get {A : Type} (d : list (string * A)) (k : string) : option A :=
  match d with
  | [] => None
  | (k', v) :: d' => if decide (k' = k) then Some v else dict_get d' k
  end.

Definition keys {A : Type} (d : list (string * A)) : list string := d.*1.

(** The parameters a record declares; none for [parameters=None]. *)
Definition declared_parameters (r : registration) : list (string * primitive) :=
  default [] (parameters r).

(** ** Calling a registered method *)

(** What the external computation library receives. *)
Record library_call : Type := {
  target : callable;
  arguments : list (string * pyval)
}.

(** Modelled from the spec: the check the framework makes before the
    registered function runs: every argument names a declared parameter
    and its value belongs to the declared type. *)
Definition valid_arguments (r : registration) (args : list (string * pyval))
    : bool :=
  forallb (fun '(p, v) =>
    match dict_get (declared_parameters r) p with
    | Some t => admits t v
    | None => false
    end) args.

(** Modelled from the spec: the functions of [alpha] and [beta], which are
    not among the sources.  Each is a thin forwarding call that hands the
    validated parameters to the external library as they are. *)
Definition forward (r : registration) (args : list (string * pyval))
    : library_call :=
  {| target := function r; arguments := args |}.

(** Modelled from the spec: a call of a registered method through the
    framework: validation first, the forwarding function after it. *)
Definition call_method (r : registration) (args : list (string * pyval))
    : option library_call :=
  if valid_arguments r args then Some (forward r args) else None.

(** ** An environment in which the module loads *)

Definition unifrac_citations : list string :=
  [ "lozupone2005unifrac"; "lozupone2007unifrac"; "hamady2010unifrac";
    "lozupone2011unifrac"; "mcdonald2018unifrac"; "chang2011variance";
    "chen2012genUnifrac"; "sfiligoi2022unifrac"; "lozupone2008metaunifrac" ].

Definition sample_env : Env := {|
  version := "2023.5.0";
  alpha_functions := list_to_set
    [ "faith_pd"; "observed_features"; "pielou_evenness"; "shannon_entropy";
      "alpha_passthrough" ];
  alpha_METRICS := {[ "NONPHYLO" := {[ "UNIMPL" := ["ace"; "chao1"] ]} ]};
  beta_functions := list_to_set
    [ "bray_curtis"; "jaccard"; "unweighted_unifrac"; "weighted_unifrac";
      "beta_passthrough"; "beta_phylogenetic_passthrough";
      "beta_phylogenetic_meta_passthrough" ];
  beta_METRICS :=
    {[ "NONPHYLO" := {[ "UNIMPL" := ["aitchison"; "euclidean"] ]};
       "PHYLO" := {[ "UNIMPL" := ["generalized_unifrac"] ]} ]};
  examples_functions := list_to_set
    [ "faith_pd_example"; "observed_features_example";
      "pielou_evenness_example"; "pielou_drop_example";
      "shannon_entropy_example"; "shannon_drop_example";
      "bray_curtis_example"; "bray_curtis_n_jobs_example";
      "bray_curtis_auto_jobs_example"; "jaccard_example";
      "jaccard_n_jobs_example"; "jaccard_auto_jobs_example";
      "u_u_example"; "u_u_n_threads_example"; "u_u_auto_threads_example";
      "u_u_bypass_tips_example"; "w_u_example"; "w_u_n_threads_example";
      "w_u_auto_threads_example"; "w_u_bypass_tips_example";
      "alpha_passthrough_example"; "beta_passthrough_example";
      "beta_passthrough_n_jobs_example";
      "beta_passthrough_auto_jobs_example";
      "beta_passthrough_pseudocount_example";
      "beta_phylo_passthrough_example";
      "beta_phylo_passthrough_n_threads_example";
      "beta_phylo_passthrough_auto_threads_example";
      "beta_phylo_passthrough_bypass_tips_example";
      "beta_phylo_passthrough_variance_adjusted_example";
      "beta_phylo_passthrough_min_generalized_unifrac_example";
      "beta_phylo_passthrough_generalized_unifrac_example";
      "beta_phylo_meta_passthrough_example";
      "beta_phylo_meta_weights_example";
      "beta_phylo_meta_consolidation_example" ];
  citations_bib := list_to_map
    ((fun k => (k, Citation "article" [("key", k)])) <$>
     ([ "faith1992conservation"; "armstrong2021faithspd";
        "pielou1966measurement"; "shannon1948communication";
        "sorensen1948method"; "jaccard1908nouvelles" ] ++
      unifrac_citations)%list);
  CONSOLIDATIONS :=
    [ "skipping_missing_matrices"; "missing_zero"; "missing_one";
      "skipping_missing_values" ]
|}.

(** * Properties *)

(** ** Every record of the plugin comes from a registration call *)

Section Origin.
Variable env : Env.

(** What the statements of the module keep true of the namespace: an
    import binds a name to the object of that name, and a citation store
    is the one loaded from the bibliography. *)
Definition bound_ok (x : string) (o : pyobj) : Prop :=
  match o with
  | OImported _ n => n = x
  | OCitations store => store = citations_bib env
  | _ => True
  end.

Definition ns_ok (g : namespace) : Prop :=
  ∀ x o, g !! x = Some o → bound_ok x o.

(** [r] is the value of a registration call of the module. *)
Definition origin (r : registration) : Prop :=
  ∃ kwargs g,
    kwargs ∈ registration_calls plugin_setup ∧ ns_ok g ∧
    kwargs env g = inr r.

(** A record is kept under the name of its function. *)
Definition record_ok (id : string) (r : registration) : Prop :=
  c_name (function r) = id ∧ origin r.

Definition records_ok (g : namespace) : Prop :=
  ∀ x p, g !! x = Some (OPlugin p) → map_Forall record_ok (plugin_methods p).

Definition inv (g : namespace) : Prop := ns_ok g ∧ records_ok g.

Definition stmt_ok (s : stmt) : Prop :=
  match s with
  | ImportFrom _ _ => True
  | Assign _ value =>
      ∀ g o, value env g = inr o →
        match o with
        | OStr _ => True
        | OCitations store => store = citations_bib env
        | OPlugin p => plugin_methods p = ∅
        | _ => False
        end
  | RegisterFunction _ kwargs => kwargs ∈ registration_calls plugin_setup
  | _ => False
  end.

Lemma inv_empty : inv ∅.
Proof.
  split; intros x o; rewrite lookup_empty; discriminate.
Qed.

Lemma inv_insert g x o :
  inv g → bound_ok x o →
  (∀ p, o = OPlugin p → map_Forall record_ok (plugin_methods p)) →
  inv (<[x := o]> g).
Proof.
  intros [Hns Hrec] Hb Hp. split.
  - intros y o'. rewrite lookup_insert_Some.
    intros [[<- <-]|[_ Hy]]; [exact Hb | exact (Hns _ _ Hy)].
  - intros y p. rewrite lookup_insert_Some.
    intros [[<- ->]|[_ Hy]]; [by apply Hp | exact (Hrec _ _ Hy)].
Qed.

Lemma inv_imports m names g :
  inv g → inv (foldl (fun g n => <[n := OImported m n]> g) g names).
Proof.
  revert g. induction names as [|n names IH]; intros g Hg; simpl; [done|].
  apply IH, inv_insert; [done | reflexivity | discriminate].
Qed.

Lemma exec_inv s g : stmt_ok s → inv g → inv (exec env s g).1.
Proof.
  destruct s as [m names|x value|receiver kwargs| | | |]; simpl; try done.
  - intros _. apply inv_imports.
  - intros Hv Hg. destruct (value env g) as [e|o] eqn:Ho; simpl; [done|].
    specialize (Hv _ _ Ho). apply inv_insert; [done | |].
    + destruct o; simpl; tauto.
    + intros p ->. rewrite Hv. apply map_Forall_empty.
  - intros Hk Hg. destruct (g !! receiver) as [[| | |p|]|] eqn:Hr; simpl; try done.
    destruct (kwargs env g) as [e|r] eqn:Hkw; simpl; [done|].
    apply inv_insert; [done | exact I |].
    intros ? [= <-]. simpl. apply map_Forall_insert_2.
    + split; [done|]. exists kwargs, g. split_and!; [done | apply Hg | done].
    + destruct Hg as [_ Hrec]. exact (Hrec _ _ Hr).
Qed.

Lemma exec_block_inv l g :
  Forall stmt_ok l → inv g → inv (exec_block env l g).1.
Proof.
  intros Hl. revert g. induction Hl as [|s l Hs _ IH]; intros g Hg; simpl; [done|].
  pose proof (exec_inv s g Hs Hg) as Hg'.
  destruct (exec env s g) as [g' [e|]]; simpl in *; [done | by apply IH].
Qed.

Lemma imported_inv g x u : imported g x = inr u → is_Some (g !! x).
Proof.
  unfold imported, global. destruct (g !! x); simpl; [eauto | discriminate].
Qed.

Lemma plugin_setup_ok : Forall stmt_ok plugin_setup.
Proof.
  unfold plugin_setup.
  repeat (apply Forall_cons; split); try apply Forall_nil; simpl;
    try exact I;
    try (apply list_elem_of_In; simpl; tauto).
  - intros g o. unfold Citations_load.
    destruct (imported g "Citations"); simpl; [discriminate|].
    by intros [= <-].
  - intros g o. unfold new_Plugin.
    destruct (imported g "Plugin"); simpl; [discriminate|].
    destruct (imported g "__version__"); simpl; [discriminate|].
    by intros [= <-].
  - by intros g o [= <-].
  - by intros g o [= <-].
  - by intros g o [= <-].
Qed.

Lemma load_inv : inv (load env).1.
Proof. apply exec_block_inv; [apply plugin_setup_ok | apply inv_empty]. Qed.

(** Every record the import leaves in the plugin is the value of one of
    the module's registration calls, kept under its function's name. *)
Lemma registered_origin id r :
  registered env !! id = Some r → c_name (function r) = id ∧ origin r.
Proof.
  unfold registered, plugin_of.
  destruct ((load env).1 !! "plugin") as [[| | |p|]|] eqn:Hp;
    try (rewrite lookup_empty; discriminate).
  intros Hr. destruct load_inv as [_ Hrec].
  exact (Hrec _ _ Hp _ _ Hr).
Qed.

(** *** What a successful lookup says *)

Lemma attr_inv g m f c :
  ns_ok g → attr env g m f = inr c →
  c = Callable m f ∧ f ∈ module_functions env m.
Proof.
  intros Hg. unfold attr, global.
  destruct (g !! m) as [o|] eqn:Hm; simpl; [|discriminate].
  destruct o as [|m0 m'| | |]; try discriminate.
  pose proof (Hg _ _ Hm) as Hb. simpl in Hb. subst m'.
  repeat case_match; try discriminate. by intros [= <-].
Qed.

Lemma cite_inv g key c :
  ns_ok g → cite g key = inr c → citations_bib env !! key = Some c.
Proof.
  intros Hg. unfold cite, global.
  destruct (g !! "citations") as [o|] eqn:Hc; simpl; [|discriminate].
  destruct o as [| |store| |]; try discriminate.
  pose proof (Hg _ _ Hc) as Hb. simpl in Hb. subst store.
  destruct (citations_bib env !! key); [by intros [= <-] | discriminate].
Qed.

End Origin.

(** ** Going through the registration calls *)

(** From [H : origin env r] to one goal per registration call, with
    [Hg : ns_ok env g] and [Hr : register_... env g = inr r]. *)
Ltac origin_cases H :=
  let k := fresh "kwargs" in
  let g := fresh "g" in
  let Hk := fresh "Hk" in
  let Hg := fresh "Hg" in
  let Hr := fresh "Hr" in
  destruct H as (k & g & Hk & Hg & Hr);
  apply list_elem_of_In in Hk;
  unfold plugin_setup, registration_calls in Hk; simpl in Hk;
  repeat (destruct Hk as [<-|Hk]); [..|destruct Hk].

Lemma bind_inr {A B : Type} (m : result A) (f : A → result B) (y : B) :
  m ≫= f = inr y → ∃ x, m = inr x ∧ f x = inr y.
Proof. destruct m as [e|x]; simpl; [discriminate | eauto]. Qed.

(** From [Hr : register_... env g = inr r] to the record the call builds,
    with one equation per name the call resolved on the way. *)
Ltac run_call Hr :=
  repeat (let E := fresh "E" in
          apply bind_inr in Hr; destruct Hr as (? & E & Hr));
  injection Hr as <-.

Ltac unfold_call Hr :=
  unfold register_faith_pd, register_observed_features,
    register_pielou_evenness, register_shannon_entropy, register_bray_curtis,
    register_jaccard, register_unweighted_unifrac, register_weighted_unifrac,
    register_alpha_passthrough, register_beta_passthrough,
    register_beta_phylogenetic_passthrough,
    register_beta_phylogenetic_meta_passthrough in Hr.

(** Turns the equations [run_call] leaves for the resolved callables and
    citations into what they say about the environment. *)
Ltac resolve_names Hg :=
  repeat match goal with
    | E : attr _ _ _ _ = inr _ |- _ =>
        apply (attr_inv _ _ _ _ _ Hg) in E; destruct E as [-> E]
    | E : cite _ _ = inr _ |- _ => apply (cite_inv _ _ _ _ Hg) in E
    end.

(** From [H : registered env !! id = Some r] to one goal per registration
    call, the record [r] replaced by the record the call builds. *)
Ltac by_registration H :=
  let Hid := fresh "Hid" in
  apply registered_origin in H; destruct H as [Hid H];
  origin_cases H;
  match goal with
  | Hr : _ = inr _, Hg : ns_ok _ _ |- _ =>
      unfold_call Hr; run_call Hr; resolve_names Hg
  end;
  simpl in Hid; try discriminate Hid;
  try match type of Hid with _ = ?id => subst id end; try clear Hid.

Lemma Forall_elem_of {A : Type} (P : A → Prop) (l : list A) :
  Forall P l → ∀ x, x ∈ l → P x.
Proof. intros H x Hx. by eapply Forall_forall in H. Qed.

Lemma iff_by_decide (P Q : Prop) `{Decision P, Decision Q} :
  bool_decide P = bool_decide Q → P ↔ Q.
Proof.
  intros HPQ. rewrite <- (bool_decide_spec P), <- (bool_decide_spec Q).
  by rewrite HPQ.
Qed.

(** Splits [∀ x, x ∈ [a; b; ...] → P x] into [P a], [P b], ... *)
Ltac each_member :=
  apply Forall_elem_of; repeat (apply Forall_cons; split);
  try (apply Forall_nil; exact I).

(** ** The module loads in the sample environment *)

Lemma sample_load : (load sample_env).2 = None.
Proof. vm_compute. reflexivity. Qed.

Lemma sample_registered :
  size (registered sample_env) = 12%nat.
Proof. vm_compute. reflexivity. Qed.

(** ** Outputs *)

(** C2. Every registered function declares exactly one output, which is
    either the per-sample vector [('vector', SampleData[AlphaDiversity])]
    or the distance matrix [('distance_matrix', DistanceMatrix)]. *)
Theorem one_output_vector_or_distance_matrix (env : Env) (id : string)
    (r : registration) :
  registered env !! id = Some r →
  outputs r = [("vector", SampleData [AlphaDiversity])] ∨
  outputs r = [("distance_matrix", DistanceMatrix)].
Proof.
  intros H. by_registration H; simpl; auto.
Qed.

Lemma one_output_vector_or_distance_matrix_witness :
  ∃ r, registered sample_env !! "jaccard" = Some r ∧
    (outputs r = [("vector", SampleData [AlphaDiversity])] ∨
     outputs r = [("distance_matrix", DistanceMatrix)]).
Proof.
  destruct (registered sample_env !! "jaccard") as [r|] eqn:H.
  - exists r. split; [reflexivity|].
    exact (one_output_vector_or_distance_matrix sample_env "jaccard" r H).
  - vm_compute in H. discriminate H.
Defined.

(** ** Internal consistency of a registration *)

(** Every declared parameter has a description; a call that passes
    [parameters=None] passes [parameter_descriptions=None] too. *)
Definition documented (r : registration) : Prop :=
  match parameters r with
  | None => parameter_descriptions r = None
  | Some ps =>
      ∃ ds, parameter_descriptions r = Some ds ∧
        ∀ p, p ∈ keys ps → is_Some (dict_get ds p)
  end.

Lemma documented_check {B : Type} (names : list string)
    (ds : list (string * B)) :
  forallb (fun p => bool_decide (is_Some (dict_get ds p))) names = true →
  ∀ p, p ∈ names → is_Some (dict_get ds p).
Proof.
  intros H p Hp. rewrite forallb_forall in H.
  apply list_elem_of_In in Hp. apply H in Hp.
  by apply bool_decide_eq_true in Hp.
Qed.

(** C1. Every registration record is internally consistent: each declared
    parameter is documented (or parameters and their descriptions are both
    absent), each example is a callable the examples module defines, and
    each citation is an entry of the loaded citation store. *)
Theorem registration_consistent (env : Env) (id : string) (r : registration) :
  registered env !! id = Some r →
  documented r ∧
  (∀ k c, (k, c) ∈ examples r →
     c_module c = "examples" ∧ c_name c ∈ examples_functions env) ∧
  (∀ cs c, citations r = Some cs → c ∈ cs →
     ∃ key, citations_bib env !! key = Some c).
Proof.
  intros H. by_registration H; unfold documented; simpl.
  all: split_and!.
  all: try reflexivity.
  all: try (eexists; split;
            [reflexivity | apply documented_check; vm_compute; reflexivity]).
  all: try (intros k c;
            apply (Forall_elem_of
                     (fun kc => c_module kc.2 = "examples" ∧
                                c_name kc.2 ∈ examples_functions env) _);
            repeat (apply Forall_cons; split); try apply Forall_nil;
            simpl; auto).
  all: intros cs c; first [discriminate | intros [= <-]; revert c; each_member; eauto].
Qed.

Lemma registration_consistent_witness :
  ∃ r, registered sample_env !! "beta_phylogenetic_meta_passthrough" = Some r ∧
    documented r ∧
    (∀ k c, (k, c) ∈ examples r →
       c_module c = "examples" ∧ c_name c ∈ examples_functions sample_env) ∧
    (∀ cs c, citations r = Some cs → c ∈ cs →
       ∃ key, citations_bib sample_env !! key = Some c).
Proof.
  destruct (registered sample_env !! "beta_phylogenetic_meta_passthrough")
    as [r|] eqn:H.
  - exists r. split; [reflexivity|].
    exact (registration_consistent sample_env _ r H).
  - vm_compute in H. discriminate H.
Defined.

(** ** Inputs *)

Lemma Forall_elem_of_pair {A B : Type} (P : A → B → Prop) (l : list (A * B)) :
  Forall (fun ab => P ab.1 ab.2) l → ∀ a b, (a, b) ∈ l → P a b.
Proof.
  intros H a b Hab. rewrite Forall_forall in H. exact (H (a, b) Hab).
Qed.

(** Splits [∀ a b, (a, b) ∈ [(a1, b1); ...] → P a b] into [P a1 b1], ... *)
Ltac each_item :=
  apply Forall_elem_of_pair;
  repeat (apply Forall_cons; split); try (apply Forall_nil; exact I); simpl.

(** An input of this type takes an unrooted tree. *)
Fixpoint accepts_unrooted (t : semantic_type) : bool :=
  match t with
  | Phylogeny variants => bool_decide (Unrooted ∈ variants)
  | ListOf elem => accepts_unrooted elem
  | _ => false
  end.

(** C10. An input named [phylogeny] is typed [Phylogeny[Rooted]] and an
    input named [phylogenies] is typed [List[Phylogeny[Rooted]]]; no input
    of a registered function accepts an unrooted tree. *)
Theorem phylogenies_rooted (env : Env) (id : string) (r : registration) :
  registered env !! id = Some r →
  ∀ x t, (x, t) ∈ inputs r →
    (x = "phylogeny" → t = Phylogeny [Rooted]) ∧
    (x = "phylogenies" → t = ListOf (Phylogeny [Rooted])) ∧
    accepts_unrooted t = false.
Proof.
  intros H. by_registration H; simpl; each_item.
  all: split_and!; first [discriminate | reflexivity].
Qed.

Lemma phylogenies_rooted_witness :
  ∃ r, registered sample_env !! "faith_pd" = Some r ∧
    ∀ x t, (x, t) ∈ inputs r →
      (x = "phylogeny" → t = Phylogeny [Rooted]) ∧
      (x = "phylogenies" → t = ListOf (Phylogeny [Rooted])) ∧
      accepts_unrooted t = false.
Proof.
  destruct (registered sample_env !! "faith_pd") as [r|] eqn:H.
  - exists r. split; [reflexivity|].
    exact (phylogenies_rooted sample_env _ r H).
  - vm_compute in H. discriminate H.
Defined.

(** *** Table normalizations *)

Definition any_table : semantic_type :=
  FeatureTable [Frequency; RelativeFrequency; PresenceAbsence].
Definition abundance_table : semantic_type :=
  FeatureTable [Frequency; RelativeFrequency].
Definition frequency_table : semantic_type := FeatureTable [Frequency].

(** The table type the claim gives each registered function. *)
Definition claimed_table_type (id : string) : option semantic_type :=
  if bool_decide (id ∈ ["jaccard"; "faith_pd"; "observed_features";
                        "unweighted_unifrac"])
  then Some any_table
  else if bool_decide (id ∈ ["pielou_evenness"; "shannon_entropy";
                             "bray_curtis"; "weighted_unifrac"])
  then Some abundance_table
  else if bool_decide (id ∈ ["alpha_passthrough"; "beta_passthrough";
                             "beta_phylogenetic_passthrough";
                             "beta_phylogenetic_meta_passthrough"])
  then Some frequency_table
  else None.

(** The normalizations a table input takes, also inside a list. *)
Fixpoint table_variants (t : semantic_type) : list table_variant :=
  match t with
  | FeatureTable variants => variants
  | ListOf elem => table_variants elem
  | _ => []
  end.

(** C9. The registrations partition by the table normalizations they
    accept: jaccard, faith_pd, observed_features and unweighted_unifrac take
    frequency, relative-frequency and presence/absence tables;
    pielou_evenness, shannon_entropy, bray_curtis and weighted_unifrac take
    frequency and relative-frequency tables, so no presence/absence table;
    the four passthroughs take frequency tables only.  The table input is
    the first input and the only one that takes a table.  It is named
    [table] and has the feature-table type of the group itself, except for
    beta_phylogenetic_meta_passthrough, whose [tables] input is a list of
    [FeatureTable[Frequency]]. *)
Theorem table_normalizations (env : Env) (id : string) (r : registration) :
  registered env !! id = Some r →
  ∃ t x tx rest,
    claimed_table_type id = Some t ∧
    inputs r = (x, tx) :: rest ∧
    table_variants tx = table_variants t ∧
    (x = "table" ∧ tx = t ∨
     x = "tables" ∧ tx = ListOf t ∧
       id = "beta_phylogenetic_meta_passthrough") ∧
    (∀ x' t', (x', t') ∈ rest → table_variants t' = []) ∧
    (PresenceAbsence ∈ table_variants tx ↔
       id ∈ ["jaccard"; "faith_pd"; "observed_features"; "unweighted_unifrac"]).
Proof.
  intros H. by_registration H; simpl.
  all: eexists _, _, _, _;
    split_and!; [vm_compute; reflexivity | reflexivity | reflexivity | | |].
  all: try (each_item; reflexivity).
  all: try (refine (iff_by_decide _ _ _); vm_compute; reflexivity).
  all: first [left; split; reflexivity | right; split_and!; reflexivity].
Qed.

Lemma table_normalizations_witness :
  ∃ r, registered sample_env !! "beta_phylogenetic_meta_passthrough" = Some r ∧
    ∃ t x tx rest,
      claimed_table_type "beta_phylogenetic_meta_passthrough" = Some t ∧
      inputs r = (x, tx) :: rest ∧
      table_variants tx = table_variants t ∧
      (x = "table" ∧ tx = t ∨
       x = "tables" ∧ tx = ListOf t ∧
         "beta_phylogenetic_meta_passthrough" =
           "beta_phylogenetic_meta_passthrough") ∧
      (∀ x' t', (x', t') ∈ rest → table_variants t' = []) ∧
      (PresenceAbsence ∈ table_variants tx ↔
         "beta_phylogenetic_meta_passthrough" ∈
           ["jaccard"; "faith_pd"; "observed_features"; "unweighted_unifrac"]).
Proof.
  destruct (registered sample_env !! "beta_phylogenetic_meta_passthrough")
    as [r|] eqn:H.
  - exists r. split; [reflexivity|].
    exact (table_normalizations sample_env _ r H).
  - vm_compute in H. discriminate H.
Defined.

(** ** Output descriptions *)

(** C8. The record of [beta.weighted_unifrac], named 'Weighted Unifrac',
    describes its [distance_matrix] output as "Distance matrix for
    Unweighted Unifrac.", the description the record of
    [beta.unweighted_unifrac] has, and not one naming the weighted
    metric. *)
Theorem weighted_unifrac_output_description (env : Env) (r : registration) :
  registered env !! "weighted_unifrac" = Some r →
  function r = Callable "beta" "weighted_unifrac" ∧
  name r = "Weighted Unifrac" ∧
  output_descriptions r =
    [("distance_matrix", "Distance matrix for Unweighted Unifrac.")] ∧
  dict_get (output_descriptions r) "distance_matrix" ≠
    Some "Distance matrix for Weighted Unifrac." ∧
  ∀ r', registered env !! "unweighted_unifrac" = Some r' →
    name r' = "Unweighted Unifrac" ∧
    output_descriptions r' = output_descriptions r.
Proof.
  intros H. by_registration H.
  split_and!; [reflexivity | reflexivity | reflexivity | discriminate |].
  intros r' H'. by_registration H'. split; reflexivity.
Qed.

Lemma weighted_unifrac_output_description_witness :
  ∃ r, registered sample_env !! "weighted_unifrac" = Some r ∧
    function r = Callable "beta" "weighted_unifrac" ∧
    name r = "Weighted Unifrac" ∧
    output_descriptions r =
      [("distance_matrix", "Distance matrix for Unweighted Unifrac.")] ∧
    dict_get (output_descriptions r) "distance_matrix" ≠
      Some "Distance matrix for Weighted Unifrac." ∧
    ∀ r', registered sample_env !! "unweighted_unifrac" = Some r' →
      name r' = "Unweighted Unifrac" ∧
      output_descriptions r' = output_descriptions r.
Proof.
  destruct (registered sample_env !! "weighted_unifrac") as [r|] eqn:H.
  - exists r. split; [reflexivity|].
    exact (weighted_unifrac_output_description sample_env r H).
  - vm_compute in H. discriminate H.
Defined.

(** ** Parameters *)

(** The parameter names the specification lists: the thread or job count
    under its two names, and the eight others. *)
Definition parameter_kinds : list string :=
  [ "threads"; "n_jobs"; "drop_undefined_samples"; "metric"; "pseudocount";
    "variance_adjusted"; "alpha"; "bypass_tips"; "weights"; "consolidation" ].

(** The claim as it is written, with its count of the registrations. *)
Definition parameter_kinds_of_ten : Prop :=
  length (registration_calls plugin_setup) = 10%nat ∧
  ∀ env id r p, registered env !! id = Some r →
    p ∈ keys (declared_parameters r) → p ∈ parameter_kinds.

(** The module makes twelve registration calls, not ten. *)
Lemma parameter_kinds_of_ten_fails : ¬ parameter_kinds_of_ten.
Proof. intros [Hn _]. vm_compute in Hn. discriminate Hn. Qed.

Lemma registration_count : length (registration_calls plugin_setup) = 12%nat.
Proof. reflexivity. Qed.

(** *** The forms of the constraints *)

(** The type of a thread or job count:
    [Int % Range(1, None) | Str % Choices(['auto'])]. *)
Definition thread_count_type : primitive :=
  Union (Refine Int (Range (Some 1) None true false))
        (Refine Str (Choices ["auto"])).

(** The four forms the specification lists: an integer restricted to a
    range, a string restricted to choices, a boolean, a float bounded to
    [[0, 1]]. *)
Definition claimed_form (t : primitive) : bool :=
  match t with
  | Refine Int (Range _ _ _ _) => true
  | Refine Str (Choices _) => true
  | Bool => true
  | Refine Float (Range (Some 0) (Some 1) true true) => true
  | _ => false
  end.

(** A value within the bounds the module declares for numbers: an integer
    from 1 on, a float in [[0, 1]]. *)
Definition within_bounds (v : pyval) : Prop :=
  match v with
  | VInt z => 1 ≤ z
  | VFloat f =>
      above_start (float_cmp_Z f 0) true = true ∧
      below_stop (float_cmp_Z f 1) true = true
  | VStr _ | VBool _ => True
  | _ => False
  end.

Lemma admits_int_from_1 (v : pyval) :
  admits (Refine Int (Range (Some 1) None true false)) v = true ↔
  ∃ z, v = VInt z ∧ 1 ≤ z.
Proof.
  split.
  - destruct v as [z| | | | |]; simpl; try discriminate.
    unfold in_range, above_start. rewrite andb_true_r.
    destruct (Z.compare_spec z 1); try discriminate; intros _; exists z;
      split; [reflexivity | lia | reflexivity | lia].
  - intros (z & -> & Hz). simpl. unfold in_range, above_start.
    destruct (Z.compare_spec z 1); try reflexivity; lia.
Qed.

Lemma admits_choices (cs : list string) (v : pyval) :
  admits (Refine Str (Choices cs)) v = true ↔ ∃ s, v = VStr s ∧ s ∈ cs.
Proof.
  split.
  - destruct v as [|s| | | |]; simpl; try discriminate.
    intros H. apply bool_decide_eq_true in H. eauto.
  - intros (s & -> & Hs). simpl. by apply bool_decide_eq_true.
Qed.

Lemma admits_bool (v : pyval) : admits Bool v = true ↔ ∃ b, v = VBool b.
Proof.
  split.
  - destruct v; simpl; try discriminate; eauto.
  - by intros (b & ->).
Qed.

Lemma admits_unit_float (v : pyval) :
  admits (Refine Float (Range (Some 0) (Some 1) true true)) v = true ↔
  ∃ f, v = VFloat f ∧
    above_start (float_cmp_Z f 0) true = true ∧
    below_stop (float_cmp_Z f 1) true = true.
Proof.
  split.
  - destruct v as [| | |f| |]; simpl; try discriminate.
    unfold in_range. intros H. apply andb_true_iff in H. eauto.
  - intros (f & -> & H0 & H1). simpl. unfold in_range. by rewrite H0, H1.
Qed.

Lemma admits_thread_count (v : pyval) :
  admits thread_count_type v = true ↔
  (∃ z, v = VInt z ∧ 1 ≤ z) ∨ v = VStr "auto".
Proof.
  unfold thread_count_type.
  change (admits (Union ?a ?b) v) with (admits a v || admits b v).
  rewrite orb_true_iff, admits_int_from_1, admits_choices.
  split; intros [H|H]; auto.
  - destruct H as (s & -> & Hs). right.
    apply list_elem_of_In in Hs. destruct Hs as [<-|[]]. reflexivity.
  - right. exists "auto". split; [done|]. apply list_elem_of_In. simpl. tauto.
Qed.

(** The claim as it is written: every declared parameter has one of the
    four forms. *)
Definition constraints_as_claimed : Prop :=
  ∀ env id r p t, registered env !! id = Some r →
    (p, t) ∈ declared_parameters r → claimed_form t = true.

(** The float 2.0. *)
Definition two : spec_float := S754_finite false 1 1.

(** [weights] of the meta passthrough is [List[Float]], none of the four
    forms, and takes a list that holds 2.0. *)
Lemma constraints_as_claimed_fails : ¬ constraints_as_claimed.
Proof.
  intros Hc.
  destruct (registered sample_env !! "beta_phylogenetic_meta_passthrough")
    as [r|] eqn:H; [|vm_compute in H; discriminate H].
  assert (Hw : ("weights", List Float) ∈ declared_parameters r).
  { pose proof H as H'. vm_compute in H'. injection H' as <-.
    apply list_elem_of_In. simpl. tauto. }
  specialize (Hc _ _ _ _ _ H Hw). discriminate Hc.
Qed.

Lemma weights_unbounded :
  admits (List Float) (VList [VFloat two]) = true ∧
  ¬ within_bounds (VFloat two).
Proof.
  split; [reflexivity|]. intros [_ H]. discriminate H.
Qed.

Ltac bounds_from Hv :=
  first
    [ apply admits_int_from_1 in Hv as (? & -> & ?)
    | apply admits_choices in Hv as (? & -> & ?)
    | apply admits_bool in Hv as (? & ->)
    | apply admits_unit_float in Hv as (? & -> & ? & ?)
    | apply admits_thread_count in Hv as [(? & -> & ?)| ->] ];
  simpl; auto.

(** C3, amended. Every parameter declared in one of the twelve
    registrations is an integer restricted to a range, a string restricted
    to choices, a boolean or a float bounded to [[0, 1]], or the union of an
    integer range and a string choice that types a thread or job count;
    except [weights] of beta_phylogenetic_meta_passthrough, a [List[Float]]
    whose floats are not bounded.  But for [weights], no parameter admits
    an integer below 1 or a float outside [[0, 1]]. *)
Theorem parameter_constraints (env : Env) (id : string) (r : registration)
    (p : string) (t : primitive) :
  registered env !! id = Some r →
  (p, t) ∈ declared_parameters r →
  (claimed_form t = true ∨
   (t = thread_count_type ∧ (p = "threads" ∨ p = "n_jobs")) ∨
   (t = List Float ∧ p = "weights" ∧
    id = "beta_phylogenetic_meta_passthrough")) ∧
  (p ≠ "weights" → ∀ v, admits t v = true → within_bounds v).
Proof.
  intros H. by_registration H; revert p t; simpl; each_item.
  all: split;
    [ first [ left; reflexivity
            | right; left; split; [reflexivity | auto]
            | right; right; split_and!; reflexivity ]
    | intros Hp v Hv; first [ by destruct Hp | bounds_from Hv ] ].
Qed.

Lemma parameter_constraints_witness :
  ∃ r, registered sample_env !! "beta_phylogenetic_passthrough" = Some r ∧
    ("alpha", Refine Float (Range (Some 0) (Some 1) true true)) ∈
      declared_parameters r ∧
    ∀ v, admits (Refine Float (Range (Some 0) (Some 1) true true)) v = true →
      within_bounds v.
Proof.
  destruct (registered sample_env !! "beta_phylogenetic_passthrough")
    as [r|] eqn:H.
  - exists r. split; [reflexivity|].
    assert (Hp : ("alpha", Refine Float (Range (Some 0) (Some 1) true true)) ∈
                 declared_parameters r).
    { pose proof H as H'. vm_compute in H'. injection H' as <-.
      apply list_elem_of_In. simpl. tauto. }
    split; [exact Hp|].
    refine (proj2 (parameter_constraints sample_env _ r _ _ H Hp) _).
    discriminate.
  - vm_compute in H. discriminate H.
Defined.

(** ** The thread or job count *)

Lemma dict_get_member {A : Type} (d : list (string * A)) (k : string) (v : A) :
  NoDup (keys d) → (k, v) ∈ d → dict_get d k = Some v.
Proof.
  unfold keys. induction d as [|[k' v'] d IH]; simpl; intros Hd Hk.
  - by apply elem_of_nil in Hk.
  - apply NoDup_cons in Hd as [Hk' Hd].
    apply elem_of_cons in Hk as [[= -> ->]|Hk].
    + by rewrite decide_True.
    + rewrite decide_False; [by apply IH|].
      intros ->. apply Hk'. apply list_elem_of_fmap. by exists (k, v).
Qed.

(** No registration declares a parameter twice. *)
Lemma parameters_distinct (env : Env) (id : string) (r : registration) :
  registered env !! id = Some r → NoDup (keys (declared_parameters r)).
Proof.
  intros H. by_registration H; simpl.
  all: refine (bool_decide_unpack _ _); vm_compute; exact I.
Qed.

(** A call that reaches the library was validated, and carries the
    function of the record and the caller's arguments as they were. *)
Lemma call_method_forwards (r : registration) (args : list (string * pyval))
    (call : library_call) :
  call_method r args = Some call →
  target call = function r ∧ arguments call = args ∧
  ∀ p v, (p, v) ∈ args →
    ∃ t, dict_get (declared_parameters r) p = Some t ∧ admits t v = true.
Proof.
  unfold call_method. destruct (valid_arguments r args) eqn:Hv; [|discriminate].
  intros [= <-]. split_and!; [reflexivity | reflexivity |].
  intros p v Hp. unfold valid_arguments in Hv. rewrite forallb_forall in Hv.
  apply list_elem_of_In in Hp. specialize (Hv _ Hp). simpl in Hv.
  destruct (dict_get (declared_parameters r) p) as [t|]; [eauto | discriminate].
Qed.

(** C4. A parameter named [threads] or [n_jobs] is typed
    [Int % Range(1, None) | Str % Choices(['auto'])], which admits exactly
    the integers from 1 on and the string 'auto'; and a call that reaches
    the library carries the value the caller gave, unmodified. *)
Theorem thread_count_forwarded (env : Env) (id : string) (r : registration)
    (p : string) (t : primitive) :
  registered env !! id = Some r →
  (p, t) ∈ declared_parameters r →
  p = "threads" ∨ p = "n_jobs" →
  t = thread_count_type ∧
  (∀ v, admits t v = true ↔ (∃ z, v = VInt z ∧ 1 ≤ z) ∨ v = VStr "auto") ∧
  (∀ args call, call_method r args = Some call →
     target call = function r ∧ arguments call = args ∧
     ∀ v, (p, v) ∈ args → admits t v = true ∧ (p, v) ∈ arguments call).
Proof.
  intros H Hp Hn.
  assert (Ht : t = thread_count_type).
  { clear -H Hp Hn. revert Hn. revert Hp.
    by_registration H; revert p t; unfold declared_parameters; simpl.
    all: refine (Forall_elem_of_pair
                   (fun p t => p = "threads" ∨ p = "n_jobs" →
                               t = thread_count_type) _ _).
    all: repeat (apply Forall_cons; split); try (apply Forall_nil; exact I).
    all: simpl; intros [Hn|Hn]; first [discriminate Hn | reflexivity]. }
  split; [exact Ht|]. split.
  - intros v. rewrite Ht. apply admits_thread_count.
  - intros args call Hc.
    destruct (call_method_forwards _ _ _ Hc) as (Htg & Ha & Hv).
    split_and!; [exact Htg | exact Ha |].
    intros v Hin. destruct (Hv _ _ Hin) as (t' & Hd & Had).
    rewrite (dict_get_member _ _ _ (parameters_distinct _ _ _ H) Hp) in Hd.
    injection Hd as <-. rewrite Ha. auto.
Qed.

Lemma thread_count_forwarded_witness :
  ∃ r, registered sample_env !! "bray_curtis" = Some r ∧
    ("n_jobs", thread_count_type) ∈ declared_parameters r ∧
    call_method r [("n_jobs", VStr "auto")] =
      Some {| target := Callable "beta" "bray_curtis";
              arguments := [("n_jobs", VStr "auto")] |} ∧
    call_method r [("n_jobs", VInt 0)] = None ∧
    ∀ v, admits thread_count_type v = true ↔
      (∃ z, v = VInt z ∧ 1 ≤ z) ∨ v = VStr "auto".
Proof.
  destruct (registered sample_env !! "bray_curtis") as [r|] eqn:H.
  - exists r. split; [reflexivity|].
    assert (Hp : ("n_jobs", thread_count_type) ∈ declared_parameters r).
    { pose proof H as H'. vm_compute in H'. injection H' as <-.
      apply list_elem_of_In. simpl. tauto. }
    split; [exact Hp|]. split_and!.
    + pose proof H as H'. vm_compute in H'. injection H' as <-. reflexivity.
    + pose proof H as H'. vm_compute in H'. injection H' as <-. reflexivity.
    + exact (proj1 (proj2 (thread_count_forwarded sample_env _ r _ _ H Hp
                             (or_intror eq_refl)))).
  - vm_compute in H. discriminate H.
Defined.

(** ** Error handling *)

(** A statement that declares a class, raises or handles an exception. *)
Definition uses_exceptions (s : stmt) : bool :=
  match s with
  | ClassDef _ _ | Raise _ | Try _ _ => true
  | _ => false
  end.

(** An exception of the interpreter, not one the module raises itself. *)
Definition builtin (e : exn) : Prop :=
  match e with
  | Raised _ => False
  | _ => True
  end.

(** The vocabulary of the framework the constraints are written in. *)
Definition constraint_vocabulary : list string :=
  ["Range"; "Choices"; "Bool"; "Int"; "Float"; "Str"; "List"].

(** The module imports [name] from [module]. *)
Definition imports (module name : string) : Prop :=
  ∃ names, ImportFrom module names ∈ plugin_setup ∧ name ∈ names.

Lemma bind_inl {A B : Type} (m : result A) (f : A → result B) (e : exn) :
  m ≫= f = inl e → m = inl e ∨ ∃ x, m = inr x ∧ f x = inl e.
Proof. destruct m as [e'|x]; simpl; [intros [= ->]; auto | eauto]. Qed.

Lemma global_builtin g x e : global g x = inl e → builtin e.
Proof. unfold global. destruct (g !! x); [discriminate | by intros [= <-]]. Qed.

Lemma global_str_builtin g x e : global_str g x = inl e → builtin e.
Proof.
  unfold global_str. intros [H|(o & _ & H)]%bind_inl.
  - by eapply global_builtin.
  - destruct o; try discriminate H; by injection H as <-.
Qed.

Lemma imported_builtin g x e : imported g x = inl e → builtin e.
Proof.
  unfold imported. intros [H|(o & _ & H)]%bind_inl.
  - by eapply global_builtin.
  - destruct o; try discriminate H; by injection H as <-.
Qed.

Lemma attr_builtin env g m f e : attr env g m f = inl e → builtin e.
Proof.
  unfold attr. intros [H|(o & _ & H)]%bind_inl.
  - by eapply global_builtin.
  - repeat case_match; try discriminate H; by injection H as <-.
Qed.

Lemma cite_builtin g key e : cite g key = inl e → builtin e.
Proof.
  unfold cite. intros [H|(o & _ & H)]%bind_inl.
  - by eapply global_builtin.
  - repeat case_match; try discriminate H; by injection H as <-.
Qed.

Lemma METRICS_builtin env g m k1 k2 e :
  METRICS env g m k1 k2 = inl e → builtin e.
Proof.
  unfold METRICS. intros [H|(o & _ & H)]%bind_inl.
  - by eapply global_builtin.
  - repeat case_match; try discriminate H; by injection H as <-.
Qed.

(** An exception that ends a registration call comes from a lookup. *)
Ltac lookup_failed H :=
  repeat (apply bind_inl in H; destruct H as [H|(? & _ & H)];
          [ first [ by eapply attr_builtin | by eapply cite_builtin
                  | by eapply global_str_builtin | by eapply imported_builtin
                  | by eapply METRICS_builtin ] | ]);
  discriminate H.

Section Exceptions.
Variable env : Env.

Definition raises_builtin (s : stmt) : Prop :=
  match s with
  | ImportFrom _ _ => True
  | Assign _ value => ∀ g e, value env g = inl e → builtin e
  | RegisterFunction _ kwargs => ∀ g e, kwargs env g = inl e → builtin e
  | _ => False
  end.

Lemma exec_builtin s g e :
  raises_builtin s → (exec env s g).2 = Some e → builtin e.
Proof.
  destruct s as [m names|x value|receiver kwargs| | | |]; simpl; try done.
  - intros Hv. destruct (value env g) as [e'|o] eqn:Ho; simpl; [|done].
    intros [= <-]. by eapply Hv.
  - intros Hk. destruct (g !! receiver) as [[| | |p|]|]; simpl;
      try by intros [= <-].
    destruct (kwargs env g) as [e'|r] eqn:Hr; simpl; [|done].
    intros [= <-]. by eapply Hk.
Qed.

Lemma exec_block_builtin l g e :
  Forall raises_builtin l → (exec_block env l g).2 = Some e → builtin e.
Proof.
  intros Hl. revert g. induction Hl as [|s l Hs _ IH]; intros g; simpl; [done|].
  pose proof (exec_builtin s g) as Hb.
  destruct (exec env s g) as [g' [e'|]]; simpl in *.
  - intros [= <-]. by apply Hb.
  - apply IH.
Qed.

Lemma plugin_setup_raises_builtin : Forall raises_builtin plugin_setup.
Proof.
  unfold plugin_setup.
  repeat (apply Forall_cons; split); try (apply Forall_nil; exact I);
    simpl; try exact I; intros g e H; try discriminate H.
  - unfold Citations_load in H.
    apply bind_inl in H as [H|(? & _ & H)]; [by eapply imported_builtin|].
    discriminate H.
  - unfold new_Plugin in H.
    apply bind_inl in H as [H|(? & _ & H)]; [by eapply imported_builtin|].
    apply bind_inl in H as [H|(? & _ & H)]; [by eapply imported_builtin|].
    discriminate H.
  - unfold_call H. lookup_failed H.
  - unfold_call H. lookup_failed H.
  - unfold_call H. lookup_failed H.
  - unfold_call H. lookup_failed H.
  - unfold_call H. lookup_failed H.
  - unfold_call H. lookup_failed H.
  - unfold_call H. lookup_failed H.
  - unfold_call H. lookup_failed H.
  - unfold_call H. lookup_failed H.
  - unfold_call H. lookup_failed H.
  - unfold_call H. lookup_failed H.
  - unfold_call H. lookup_failed H.
Qed.

End Exceptions.

Lemma parameter_vocabulary (env : Env) (id : string) (r : registration)
    (p : string) (t : primitive) :
  registered env !! id = Some r →
  (p, t) ∈ declared_parameters r →
  ∀ w, w ∈ vocabulary t → w ∈ constraint_vocabulary.
Proof.
  intros H. by_registration H; revert p t; unfold declared_parameters; simpl.
  all: refine (Forall_elem_of_pair
                 (fun p t => ∀ w, w ∈ vocabulary t → w ∈ constraint_vocabulary)
                 _ _).
  all: repeat (apply Forall_cons; split); try (apply Forall_nil; exact I).
  all: simpl; each_member.
  all: apply list_elem_of_In; simpl; tauto.
Qed.

Lemma vocabulary_imported (w : string) :
  w ∈ constraint_vocabulary → imports "qiime2.plugin" w.
Proof.
  intros Hw.
  exists ["Plugin"; "Citations"; "Bool"; "Int"; "Range"; "Choices"; "Str";
          "Float"; "List"].
  split; [apply list_elem_of_In; simpl; left; reflexivity|].
  revert w Hw. each_member.
  all: apply list_elem_of_In; simpl; tauto.
Qed.

(** C6. The module has no error kinds of its own: no statement declares a
    class, raises or handles an exception, and an import of the module can
    only end with an exception of the interpreter's lookups.  Every
    constraint is written in the vocabulary the module imports from the
    framework, [Range], [Choices], [Bool], [Int], [Float], [Str] and
    [List]; and the framework enforces it before the registered function
    runs: a call reaches the library only with arguments of the declared
    types, and an argument outside its type means no call at all. *)
Theorem no_error_kinds_of_its_own :
  Forall (fun s => uses_exceptions s = false) plugin_setup ∧
  (∀ env e, (load env).2 = Some e → builtin e) ∧
  (∀ env id r p t w,
     registered env !! id = Some r → (p, t) ∈ declared_parameters r →
     w ∈ vocabulary t →
     w ∈ constraint_vocabulary ∧ imports "qiime2.plugin" w) ∧
  (∀ r args call, call_method r args = Some call →
     ∀ p v, (p, v) ∈ args →
       ∃ t, dict_get (declared_parameters r) p = Some t ∧ admits t v = true) ∧
  (∀ r args p v, (p, v) ∈ args →
     (∀ t, dict_get (declared_parameters r) p = Some t → admits t v = false) →
     call_method r args = None).
Proof.
  split_and!.
  - unfold plugin_setup.
    repeat (apply Forall_cons; split); try (apply Forall_nil; exact I);
      reflexivity.
  - intros env e. apply exec_block_builtin, plugin_setup_raises_builtin.
  - intros env id r p t w H Hp Hw.
    pose proof (parameter_vocabulary env id r p t H Hp w Hw) as Hv.
    split; [exact Hv | by apply vocabulary_imported].
  - intros r args call Hc. by destruct (call_method_forwards r args call Hc) as (_ & _ & Hv).
  - intros r args p v Hp Hbad.
    destruct (call_method r args) as [call|] eqn:Hc; [|reflexivity].
    destruct (call_method_forwards r args call Hc) as (_ & _ & Hv).
    destruct (Hv p v Hp) as (t & Ht & Hadm).
    rewrite (Hbad t Ht) in Hadm. discriminate Hadm.
Qed.

Lemma no_error_kinds_of_its_own_witness :
  ∃ r, registered sample_env !! "bray_curtis" = Some r ∧
    ("n_jobs", VInt 0) ∈ [("n_jobs", VInt 0)] ∧
    (∀ t, dict_get (declared_parameters r) "n_jobs" = Some t →
          admits t (VInt 0) = false) ∧
    call_method r [("n_jobs", VInt 0)] = None.
Proof.
  destruct (registered sample_env !! "bray_curtis") as [r|] eqn:H.
  - exists r. split; [reflexivity|].
    assert (Hin : ("n_jobs", VInt 0) ∈ [("n_jobs", VInt 0)])
      by (apply list_elem_of_In; simpl; tauto).
    assert (Hbad : ∀ t, dict_get (declared_parameters r) "n_jobs" = Some t →
                        admits t (VInt 0) = false).
    { vm_compute in H. injection H as <-.
      intros t Ht. vm_compute in Ht. injection Ht as <-. reflexivity. }
    split_and!; [exact Hin | exact Hbad |].
    exact (proj2 (proj2 (proj2 (proj2 no_error_kinds_of_its_own)))
             r _ _ _ Hin Hbad).
  - vm_compute in H. discriminate H.
Defined.

(** ** The records stay as they were created *)

(** The plugin's own metadata. *)
Definition same_descriptor (p p' : Plugin) : Prop :=
  plugin_name p = plugin_name p' ∧
  plugin_version p = plugin_version p' ∧
  plugin_website p = plugin_website p' ∧
  plugin_short_description p = plugin_short_description p' ∧
  plugin_package p = plugin_package p' ∧
  plugin_description p = plugin_description p'.

(** [p'] is [p] with more records: the metadata and every record of [p]
    are in [p'] as they are in [p]. *)
Definition extends (p p' : Plugin) : Prop :=
  same_descriptor p p' ∧ plugin_methods p ⊆ plugin_methods p'.

(** The call registers its record under the name [f]. *)
Definition call_named (kwargs : Env → namespace → result registration)
    (f : string) : Prop :=
  ∀ env g r, kwargs env g = inr r → c_name (function r) = f.

(** The names the twelve calls register under, in source order. *)
Definition call_names : list string :=
  [ "faith_pd"; "observed_features"; "pielou_evenness"; "shannon_entropy";
    "bray_curtis"; "jaccard"; "unweighted_unifrac"; "weighted_unifrac";
    "alpha_passthrough"; "beta_passthrough"; "beta_phylogenetic_passthrough";
    "beta_phylogenetic_meta_passthrough" ].

(** The statements after the one that binds [plugin]. *)
Fixpoint after_construction (l : list stmt) : list stmt :=
  match l with
  | [] => []
  | Assign x _ :: l' =>
      if bool_decide (x = "plugin") then l' else after_construction l'
  | _ :: l' => after_construction l'
  end.

Definition constructs_plugin (s : stmt) : bool :=
  match s with
  | Assign x _ => bool_decide (x = "plugin")
  | _ => false
  end.

Definition is_register_call (s : stmt) : bool :=
  match s with
  | RegisterFunction receiver _ => bool_decide (receiver = "plugin")
  | _ => false
  end.

(** An assignment of one of the three parameter descriptions. *)
Definition is_description_assignment (s : stmt) : bool :=
  match s with
  | Assign x _ =>
      bool_decide (x ∈ ["n_jobs_description"; "threads_description";
                        "drop_undef_samples_description"])
  | _ => false
  end.

(** The claim as it is written: once the plugin is constructed, the
    module makes registration calls only. *)
Definition only_registrations_follow : Prop :=
  Forall (fun s => is_register_call s = true) (after_construction plugin_setup).

(** The statement after [plugin = Plugin(...)] assigns
    [n_jobs_description]. *)
Lemma only_registrations_follow_fails : ¬ only_registrations_follow.
Proof.
  unfold only_registrations_follow. intros H.
  apply Forall_cons in H as [H _]. discriminate H.
Qed.

Lemma attr_name env g m f c : attr env g m f = inr c → c_name c = f.
Proof.
  unfold attr. intros (o & _ & H)%bind_inr.
  repeat case_match; try discriminate H. by injection H as <-.
Qed.

Lemma exec_block_app env l1 l2 g :
  exec_block env (l1 ++ l2) g =
  match exec_block env l1 g with
  | (g1, None) => exec_block env l2 g1
  | r => r
  end.
Proof.
  revert g. induction l1 as [|s l1 IH]; intros g; simpl; [done|].
  destruct (exec env s g) as [g' [e|]]; [done | apply IH].
Qed.

Lemma plugin_of_Some g p : plugin_of g = Some p → g !! "plugin" = Some (OPlugin p).
Proof.
  unfold plugin_of. destruct (g !! "plugin") as [[]|]; try discriminate.
  by intros [= ->].
Qed.

Lemma plugin_of_insert_ne g x o :
  x ≠ "plugin" → plugin_of (<[x := o]> g) = plugin_of g.
Proof. intros Hx. unfold plugin_of. by rewrite lookup_insert_ne. Qed.

Lemma plugin_of_insert g p : plugin_of (<["plugin" := OPlugin p]> g) = Some p.
Proof. unfold plugin_of. by rewrite lookup_insert_eq. Qed.

Lemma extends_refl p : extends p p.
Proof. by repeat split. Qed.

Lemma extends_trans p1 p2 p3 : extends p1 p2 → extends p2 p3 → extends p1 p3.
Proof.
  intros [(? & ? & ? & ? & ? & ?) H12] [(? & ? & ? & ? & ? & ?) H23].
  split; [repeat split; congruence | by etrans].
Qed.

(** A statement that leaves the plugin as it is or adds the records named
    [fs] to it. *)
Definition adds (s : stmt) (fs : list string) : Prop :=
  match s with
  | Assign x _ => x ≠ "plugin" ∧ fs = []
  | RegisterFunction receiver kwargs =>
      receiver = "plugin" ∧ ∃ f, fs = [f] ∧ call_named kwargs f
  | _ => False
  end.

Section Persistence.
Variable env : Env.

Lemma exec_adds s fs g p :
  adds s fs → plugin_of g = Some p →
  (∀ f, f ∈ fs → plugin_methods p !! f = None) →
  ∃ p', plugin_of (exec env s g).1 = Some p' ∧ extends p p' ∧
    ∀ id, is_Some (plugin_methods p' !! id) →
      is_Some (plugin_methods p !! id) ∨ id ∈ fs.
Proof.
  destruct s as [|x value|receiver kwargs| | | |]; simpl; try done.
  - intros [Hx ->] Hp _. exists p.
    split_and!; [|apply extends_refl|auto].
    destruct (value env g); simpl; [done|]. by rewrite plugin_of_insert_ne.
  - intros [-> (f & -> & Hk)] Hp Hfresh.
    rewrite (plugin_of_Some _ _ Hp).
    destruct (kwargs env g) as [e|r] eqn:Hr; simpl.
    { exists p. split_and!; [done | apply extends_refl | auto]. }
    exists (register_function p r). rewrite plugin_of_insert.
    pose proof (Hk _ _ _ Hr) as <-. split_and!; [done | |].
    + split; [by repeat split|]. simpl. apply insert_subseteq, Hfresh.
      apply list_elem_of_In. simpl. tauto.
    + intros id. simpl. rewrite lookup_insert_is_Some.
      intros [<-|[_ ?]]; [right|by left].
      apply list_elem_of_In. simpl. tauto.
Qed.

Lemma exec_block_adds l fss g p :
  Forall2 adds l fss → NoDup (concat fss) → plugin_of g = Some p →
  (∀ f, f ∈ concat fss → plugin_methods p !! f = None) →
  ∃ p', plugin_of (exec_block env l g).1 = Some p' ∧ extends p p' ∧
    ∀ id, is_Some (plugin_methods p' !! id) →
      is_Some (plugin_methods p !! id) ∨ id ∈ concat fss.
Proof.
  intros Hl. revert g p.
  induction Hl as [|s fs l fss Hs _ IH]; intros g p Hnd Hp Hfresh; simpl.
  { exists p. split_and!; [done | apply extends_refl | auto]. }
  simpl in Hnd, Hfresh. apply NoDup_app in Hnd as (_ & Hdis & Hnd).
  destruct (exec_adds s fs g p Hs Hp) as (p1 & Hp1 & Hext1 & Hdom1).
  { intros f Hf. apply Hfresh, elem_of_app. by left. }
  destruct (exec env s g) as [g1 [e|]]; simpl in *.
  { exists p1. split_and!; [done..|].
    intros id Hid. destruct (Hdom1 id Hid); [by left|right].
    apply elem_of_app. by left. }
  destruct (IH g1 p1 Hnd Hp1) as (p2 & Hp2 & Hext2 & Hdom2).
  { intros f Hf.
    destruct (plugin_methods p1 !! f) as [r|] eqn:Hr; [|done].
    destruct (Hdom1 f) as [[r' Hr']|Hin]; [by eexists| |].
    - rewrite Hfresh in Hr'; [done|]. apply elem_of_app. by right.
    - by destruct (Hdis f Hin). }
  exists p2. split_and!; [done | by eapply extends_trans |].
  intros id Hid. rewrite elem_of_app.
  destruct (Hdom2 id Hid) as [H1|?]; [|auto].
  destruct (Hdom1 id H1); auto.
Qed.

End Persistence.

(** What each statement after the construction adds: nothing for the three
    description strings, one record for each call. *)
Definition post_tags : list (list string) :=
  [[]; []; []] ++ ((fun f => [f]) <$> call_names).

Lemma calls_named :
  Forall2 call_named (registration_calls plugin_setup) call_names.
Proof.
  unfold plugin_setup, call_names. simpl.
  repeat (apply Forall2_cons; split); try apply Forall2_nil_2.
  all: intros env g r Hr; unfold_call Hr; run_call Hr; simpl.
  all: by eapply attr_name.
Qed.

Lemma call_names_distinct : NoDup call_names.
Proof. refine (bool_decide_unpack _ _). vm_compute. exact I. Qed.

Lemma post_tags_distinct : NoDup (concat post_tags).
Proof. refine (bool_decide_unpack _ _). vm_compute. exact I. Qed.

Lemma post_adds : Forall2 adds (drop 9 plugin_setup) post_tags.
Proof.
  pose proof calls_named as Hc.
  unfold plugin_setup, call_names in *. simpl in *.
  repeat match type of Hc with
    | Forall2 _ (_ :: _) (_ :: _) => apply Forall2_cons in Hc as [? Hc]
    end.
  repeat (apply Forall2_cons; split); try apply Forall2_nil_2; simpl.
  1-3: split; [discriminate | reflexivity].
  all: split; [reflexivity|]; eexists; split; [reflexivity | assumption].
Qed.

(** The first nine statements cannot fail, and leave a plugin without
    records. *)
Lemma construction (env : Env) :
  (exec_block env (take 9 plugin_setup) ∅).2 = None ∧
  ∃ p0, plugin_of (exec_block env (take 9 plugin_setup) ∅).1 = Some p0 ∧
    plugin_methods p0 = ∅.
Proof.
  split; [vm_compute; reflexivity|].
  eexists. split; [vm_compute; reflexivity | reflexivity].
Qed.

Lemma before_construction (env : Env) (n : nat) :
  (n < 9)%nat → plugin_of (namespace_after env n) = None.
Proof.
  intros Hn. unfold namespace_after.
  do 9 (destruct n as [|n]; [vm_compute; reflexivity|]). lia.
Qed.

Lemma concat_take_drop {A : Type} (l : list (list A)) (n : nat) :
  (concat (take n l) ++ concat (drop n l))%list = concat l.
Proof. by rewrite <- concat_app, take_drop. Qed.

Lemma elem_of_concat_take {A : Type} (l : list (list A)) (n : nat) (x : A) :
  x ∈ concat (take n l) → x ∈ concat l.
Proof.
  intros Hx. rewrite <- (concat_take_drop l n). apply elem_of_app. by left.
Qed.

(** Once the plugin exists, running more of the module keeps its metadata
    and every record it holds. *)
Lemma records_persist (env : Env) (n m : nat) (p : Plugin) :
  (n ≤ m)%nat → plugin_of (namespace_after env n) = Some p →
  ∃ p', plugin_of (namespace_after env m) = Some p' ∧ extends p p'.
Proof.
  intros Hnm Hp.
  destruct (decide (n < 9)%nat) as [Hn|Hn].
  { rewrite before_construction in Hp by done. discriminate Hp. }
  assert (∃ a, n = (9 + a)%nat) as [a ->] by (exists (n - 9)%nat; lia).
  assert (∃ b, m = (9 + a + b)%nat) as [b ->] by (exists (m - (9 + a))%nat; lia).
  clear Hn Hnm. unfold namespace_after in *.
  destruct (construction env) as (Hok & p0 & Hp0 & Hempty).
  rewrite <- Nat.add_assoc.
  rewrite <- (take_take_drop plugin_setup 9 (a + b)).
  rewrite <- (take_take_drop plugin_setup 9 a) in Hp.
  rewrite <- (take_take_drop (drop 9 plugin_setup) a b).
  rewrite exec_block_app. rewrite exec_block_app in Hp.
  destruct (exec_block env (take 9 plugin_setup) ∅) as [g9 [e|]];
    [discriminate Hok|]. cbn [fst snd] in Hp0.
  rewrite exec_block_app.
  pose proof post_adds as Hadds.
  pose proof post_tags_distinct as Hnd.
  rewrite <- (concat_take_drop post_tags a) in Hnd.
  apply NoDup_app in Hnd as (Hnd1 & Hdis & Hnd2).
  destruct (exec_block_adds env (take a (drop 9 plugin_setup))
              (take a post_tags) g9 p0) as (p1 & Hp1 & _ & Hdom1);
    [by apply Forall2_take | done | done | |].
  { intros f _. by rewrite Hempty, lookup_empty. }
  destruct (exec_block env (take a (drop 9 plugin_setup)) g9) as [g1 [e|]];
    cbn [fst snd] in *.
  { exists p. split; [done | apply extends_refl]. }
  rewrite Hp in Hp1. injection Hp1 as <-.
  destruct (exec_block_adds env (take b (drop a (drop 9 plugin_setup)))
              (take b (drop a post_tags)) g1 p) as (p2 & Hp2 & Hext & _);
    [by apply Forall2_take, Forall2_drop | | done | | by exists p2].
  - rewrite <- (concat_take_drop (drop a post_tags) b) in Hnd2.
    by apply NoDup_app in Hnd2 as (? & _ & _).
  - intros f Hf%elem_of_concat_take.
    destruct (plugin_methods p !! f) as [r|] eqn:Hr; [|done].
    destruct (Hdom1 f) as [[r' Hr']|Hin]; [by eexists| |].
    + by rewrite Hempty, lookup_empty in Hr'.
    + by destruct (Hdis f Hin).
Qed.

(** C7, amended. The module binds [plugin] once.  After that it assigns
    the three parameter description strings and makes the twelve
    registration calls, and nothing else.  Each call registers under a name
    of its own, so from the moment the plugin exists, every further
    statement leaves the plugin's metadata and every record it already
    holds as they are: records are added, never changed or removed. *)
Theorem records_created_once_and_kept :
  length (List.filter constructs_plugin plugin_setup) = 1%nat ∧
  Forall (fun s => is_register_call s = true ∨
                   is_description_assignment s = true)
    (after_construction plugin_setup) ∧
  length (List.filter is_description_assignment
            (after_construction plugin_setup)) = 3%nat ∧
  length (List.filter is_register_call
            (after_construction plugin_setup)) = 12%nat ∧
  Forall2 call_named (registration_calls plugin_setup) call_names ∧
  NoDup call_names ∧
  (∀ env n m p, (n ≤ m)%nat →
     plugin_of (namespace_after env n) = Some p →
     ∃ p', plugin_of (namespace_after env m) = Some p' ∧ extends p p').
Proof.
  split_and!.
  - reflexivity.
  - unfold plugin_setup. simpl.
    repeat (apply Forall_cons; split); try (apply Forall_nil; exact I);
      simpl; auto.
  - reflexivity.
  - reflexivity.
  - apply calls_named.
  - apply call_names_distinct.
  - apply records_persist.
Qed.

Lemma records_created_once_and_kept_witness :
  ∃ p, (13 ≤ 24)%nat ∧ plugin_of (namespace_after sample_env 13) = Some p ∧
    size (plugin_methods p) = 1%nat ∧
    ∃ p', plugin_of (namespace_after sample_env 24) = Some p' ∧ extends p p'.
Proof.
  destruct (plugin_of (namespace_after sample_env 13)) as [p|] eqn:H.
  - exists p.
    assert (Hle : (13 ≤ 24)%nat) by lia.
    split_and!; [exact Hle | reflexivity | |].
    + vm_compute in H. injection H as <-. vm_compute. reflexivity.
    + exact (proj2 (proj2 (proj2 (proj2 (proj2 (proj2
               records_created_once_and_kept)))))
               sample_env 13%nat 24%nat p Hle H).
  - vm_compute in H. discriminate H.
Defined.


(** * Further properties of the registrations *)

(** ** Descriptions follow the declarations *)

(** The descriptions of a record are keyed by exactly the names it
    declares, in the same order: inputs, outputs and parameters alike.  No
    input is declared twice, and every record has at least one usage
    example, each under a title of its own. *)
Theorem descriptions_keyed (env : Env) (id : string) (r : registration) :
  registered env !! id = Some r →
  keys (input_descriptions r) = keys (inputs r) ∧
  keys (output_descriptions r) = keys (outputs r) ∧
  keys <$> parameter_descriptions r = keys <$> parameters r ∧
  NoDup (keys (inputs r)) ∧
  NoDup (keys (examples r)) ∧
  examples r ≠ [].
Proof.
  intros H. by_registration H.
  all: split_and!; try reflexivity; try discriminate.
  all: refine (bool_decide_unpack _ _); vm_compute; exact I.
Qed.

Lemma descriptions_keyed_witness :
  ∃ r, registered sample_env !! "beta_passthrough" = Some r ∧
    keys (input_descriptions r) = keys (inputs r) ∧
    keys (output_descriptions r) = keys (outputs r) ∧
    keys <$> parameter_descriptions r = keys <$> parameters r ∧
    NoDup (keys (inputs r)) ∧
    NoDup (keys (examples r)) ∧
    examples r ≠ [].
Proof.
  destruct (registered sample_env !! "beta_passthrough") as [r|] eqn:H.
  - exists r. split; [reflexivity|].
    exact (descriptions_keyed sample_env _ r H).
  - vm_compute in H. discriminate H.
Defined.

(** ** The output follows the module of the function *)

(** A function of [alpha] gives the per-sample vector, a function of
    [beta] the distance matrix; no other module is registered. *)
Theorem output_by_module (env : Env) (id : string) (r : registration) :
  registered env !! id = Some r →
  (c_module (function r) = "alpha" ∧
   outputs r = [("vector", SampleData [AlphaDiversity])]) ∨
  (c_module (function r) = "beta" ∧
   outputs r = [("distance_matrix", DistanceMatrix)]).
Proof.
  intros H. by_registration H.
  all: first [left; split; reflexivity | right; split; reflexivity].
Qed.

Lemma output_by_module_witness :
  ∃ r, registered sample_env !! "alpha_passthrough" = Some r ∧
    ((c_module (function r) = "alpha" ∧
      outputs r = [("vector", SampleData [AlphaDiversity])]) ∨
     (c_module (function r) = "beta" ∧
      outputs r = [("distance_matrix", DistanceMatrix)])).
Proof.
  destruct (registered sample_env !! "alpha_passthrough") as [r|] eqn:H.
  - exists r. split; [reflexivity|].
    exact (output_by_module sample_env _ r H).
  - vm_compute in H. discriminate H.
Defined.

(** ** Which registrations take a thread or a job count *)

(** The record takes a phylogeny, or a list of them. *)
Definition takes_phylogeny (r : registration) : Prop :=
  "phylogeny" ∈ keys (inputs r) ∨ "phylogenies" ∈ keys (inputs r).

Definition declares (r : registration) (p : string) : Prop :=
  p ∈ keys (declared_parameters r).

(** The functions that take a phylogeny count threads, under [threads];
    the functions of [beta] that take none count jobs, under [n_jobs]; the
    functions of [alpha] that take none have neither.  [bypass_tips] is a
    parameter of exactly the functions of [beta] that take a phylogeny. *)
Theorem thread_and_job_counts (env : Env) (id : string) (r : registration) :
  registered env !! id = Some r →
  (declares r "threads" ↔ takes_phylogeny r) ∧
  (declares r "n_jobs" ↔
     c_module (function r) = "beta" ∧ ¬ takes_phylogeny r) ∧
  (declares r "bypass_tips" ↔
     c_module (function r) = "beta" ∧ takes_phylogeny r) ∧
  ¬ (declares r "threads" ∧ declares r "n_jobs").
Proof.
  intros H. by_registration H.
  all: unfold declares, takes_phylogeny, declared_parameters.
  all: split_and!; [refine (iff_by_decide _ _ _); vm_compute; reflexivity .. |].
  all: refine (bool_decide_unpack _ _); vm_compute; exact I.
Qed.

Lemma thread_and_job_counts_witness :
  ∃ r, registered sample_env !! "faith_pd" = Some r ∧
    (declares r "threads" ↔ takes_phylogeny r) ∧
    (declares r "n_jobs" ↔
       c_module (function r) = "beta" ∧ ¬ takes_phylogeny r) ∧
    (declares r "bypass_tips" ↔
       c_module (function r) = "beta" ∧ takes_phylogeny r) ∧
    ¬ (declares r "threads" ∧ declares r "n_jobs").
Proof.
  destruct (registered sample_env !! "faith_pd") as [r|] eqn:H.
  - exists r. split; [reflexivity|].
    exact (thread_and_job_counts sample_env _ r H).
  - vm_compute in H. discriminate H.
Defined.

Set Warnings "-clear-no-such-hyp".

(** ** The namespace the registration calls run in *)

(** What the imports and the five assignments leave bound when the first
    registration call runs, and every later one. *)
Definition ready (env : Env) (g : namespace) : Prop :=
  ns_ok env g ∧
  g !! "alpha" = Some (OImported "." "alpha") ∧
  g !! "beta" = Some (OImported "." "beta") ∧
  g !! "examples" = Some (OImported "." "examples") ∧
  g !! "CONSOLIDATIONS" = Some (OImported "unifrac._meta" "CONSOLIDATIONS") ∧
  g !! "citations" = Some (OCitations (citations_bib env)) ∧
  g !! "n_jobs_description" = Some (OStr n_jobs_description) ∧
  g !! "threads_description" = Some (OStr threads_description).

(** The twelve calls as statements. *)
Definition register_all (ks : list (Env → namespace → result registration))
    : list stmt :=
  RegisterFunction "plugin" <$> ks.

Lemma registrations_last :
  drop 12 plugin_setup = register_all (registration_calls plugin_setup).
Proof. reflexivity. Qed.

Lemma ready_register env g p :
  ready env g → ready env (<["plugin" := OPlugin p]> g).
Proof.
  intros (Hns & H). split.
  - intros x o. rewrite lookup_insert_Some.
    intros [[<- <-]|[_ Hx]]; [exact I | exact (Hns _ _ Hx)].
  - by rewrite !lookup_insert_ne.
Qed.

(** The imports and the assignments cannot fail; they leave the namespace
    ready and the plugin without records. *)
Lemma ready_after_assignments (env : Env) :
  (exec_block env (take 12 plugin_setup) ∅).2 = None ∧
  ready env (exec_block env (take 12 plugin_setup) ∅).1 ∧
  ∃ p0, plugin_of (exec_block env (take 12 plugin_setup) ∅).1 = Some p0 ∧
    plugin_methods p0 = ∅.
Proof.
  split_and!.
  - vm_compute. reflexivity.
  - split.
    + apply (exec_block_inv env); [|apply inv_empty].
      apply Forall_take, plugin_setup_ok.
    + split_and!; vm_compute; reflexivity.
  - eexists. split; [vm_compute; reflexivity | reflexivity].
Qed.

(** Running the calls one after the other: [j] of them complete, and the
    plugin then holds, besides what it held, one record for each, under the
    names the calls register under. *)
Lemma register_block (env : Env)
    (ks : list (Env → namespace → result registration)) (fs : list string)
    (g : namespace) (p : Plugin) :
  Forall2 call_named ks fs → ready env g → plugin_of g = Some p →
  ∃ j p',
    (j ≤ length ks)%nat ∧
    plugin_of (exec_block env (register_all ks) g).1 = Some p' ∧
    dom (plugin_methods p') =
      dom (plugin_methods p) ∪ list_to_set (take j fs) ∧
    ((exec_block env (register_all ks) g).2 = None ↔ j = length ks) ∧
    (∀ id r, plugin_methods p' !! id = Some r →
       plugin_methods p !! id = Some r ∨
       ∃ k g', k ∈ ks ∧ ready env g' ∧ k env g' = inr r ∧
               c_name (function r) = id).
Proof.
  intros Hks. revert g p.
  induction Hks as [|k f ks fs Hk _ IH]; intros g p Hg Hp.
  { exists 0%nat, p. simpl. split_and!; auto; set_solver. }
  simpl. rewrite (plugin_of_Some _ _ Hp).
  destruct (k env g) as [e|r] eqn:Hr.
  { exists 0%nat, p. simpl. split_and!; auto;
      [lia | set_solver | split; [discriminate | lia]]. }
  pose proof (Hk _ _ _ Hr) as Hf.
  destruct (IH (<["plugin" := OPlugin (register_function p r)]> g)
              (register_function p r)) as
    (j & p' & Hj & Hp' & Hdom & Hok & Horigin);
    [by apply ready_register | apply plugin_of_insert |].
  exists (S j), p'. simpl. split_and!.
  - lia.
  - exact Hp'.
  - rewrite Hdom. simpl. rewrite dom_insert_L, Hf. set_solver.
  - rewrite Hok. lia.
  - intros id r' Hid. destruct (Horigin id r' Hid) as [Hold|Hnew].
    + simpl in Hold. apply lookup_insert_Some in Hold as [[<- <-]|[_ Hold]].
      * right. exists k, g. split_and!; auto. apply elem_of_cons. by left.
      * by left.
    + right. destruct Hnew as (k' & g' & Hk' & Hrest).
      exists k', g'. split; [|exact Hrest]. apply elem_of_cons. by right.
Qed.

(** ** What an import registers *)

(** The plugin an import leaves holds the records of the calls that
    completed, under the names of their functions: a prefix, in source
    order, of the twelve; all twelve exactly when the import raised
    nothing.  An import that fails keeps what was registered before the
    failing call. *)
Theorem registered_prefix (env : Env) :
  ∃ j, (j ≤ 12)%nat ∧
    dom (registered env) = list_to_set (take j call_names) ∧
    ((load env).2 = None ↔ j = 12%nat).
Proof.
  unfold registered, load.
  rewrite <- (take_drop 12 plugin_setup), exec_block_app.
  destruct (ready_after_assignments env) as (Hok & Hready & p0 & Hp0 & Hempty).
  destruct (exec_block env (take 12 plugin_setup) ∅) as [g12 [e|]];
    [discriminate Hok|]. cbn [fst snd] in Hready, Hp0.
  rewrite registrations_last.
  destruct (register_block env _ _ g12 p0 calls_named Hready Hp0)
    as (j & p' & Hj & Hp' & Hdom & Hsucc & _).
  exists j. rewrite Hp', Hdom, Hempty, dom_empty_L, Hsucc.
  split_and!; [exact Hj | set_solver | reflexivity].
Qed.

(** Every record of the plugin is the value of a registration call made in
    a ready namespace. *)
Lemma registered_ready (env : Env) (id : string) (r : registration) :
  registered env !! id = Some r →
  ∃ k g, k ∈ registration_calls plugin_setup ∧ ready env g ∧
         k env g = inr r ∧ c_name (function r) = id.
Proof.
  unfold registered, load.
  rewrite <- (take_drop 12 plugin_setup), exec_block_app.
  destruct (ready_after_assignments env) as (Hok & Hready & p0 & Hp0 & Hempty).
  destruct (exec_block env (take 12 plugin_setup) ∅) as [g12 [e|]];
    [discriminate Hok|]. cbn [fst snd] in Hready, Hp0.
  rewrite registrations_last.
  destruct (register_block env _ _ g12 p0 calls_named Hready Hp0)
    as (j & p' & _ & Hp' & _ & _ & Horigin).
  rewrite Hp'. intros Hr. destruct (Horigin id r Hr) as [Hold|Hnew]; [|done].
  by rewrite Hempty, lookup_empty in Hold.
Qed.

(** ** The parameters of the twelve registrations *)

(** An import that raised nothing has registered a record under each of
    the twelve names. *)
Lemma loaded_all_registered (env : Env) (id : string) :
  (load env).2 = None → id ∈ call_names → is_Some (registered env !! id).
Proof.
  unfold registered, load.
  rewrite <- (take_drop 12 plugin_setup), exec_block_app.
  destruct (ready_after_assignments env) as (Hok & Hready & p0 & Hp0 & Hempty).
  destruct (exec_block env (take 12 plugin_setup) ∅) as [g12 [e|]];
    [discriminate Hok|]. cbn [fst snd] in Hready, Hp0.
  rewrite registrations_last.
  destruct (register_block env _ _ g12 p0 calls_named Hready Hp0)
    as (j & p' & _ & Hp' & Hdom & Hsucc & _).
  rewrite Hp', Hsucc. intros -> Hid.
  apply elem_of_dom. rewrite Hdom. apply elem_of_union_r.
  by apply elem_of_list_to_set.
Qed.

(** After a complete import, the record registered under [id] declares the
    parameter of the goal. *)
Ltac declared_by env Hload id :=
  let r := fresh "r" in
  let Hr := fresh "Hr" in
  let H := fresh "H" in
  destruct (loaded_all_registered env id Hload) as [r Hr];
    [apply list_elem_of_In; simpl; tauto|];
  exists id, r; split; [exact Hr|];
  pose proof Hr as H; by_registration H;
  apply list_elem_of_In; simpl; tauto.

(** C5, amended. Across all twelve registrations the parameters declared
    are exactly: threads or n_jobs, drop_undefined_samples, metric,
    pseudocount, variance_adjusted, alpha, bypass_tips, weights and
    consolidation.  No registered record declares another; and whenever the
    import completes, as it does in the sample environment, each of them is
    declared by a record the plugin then holds. *)
Theorem parameter_kinds_exact :
  length (registration_calls plugin_setup) = 12%nat ∧
  (∀ env id r p, registered env !! id = Some r →
     p ∈ keys (declared_parameters r) → p ∈ parameter_kinds) ∧
  (∀ env, (load env).2 = None →
     ∀ p, p ∈ parameter_kinds →
       ∃ id r, registered env !! id = Some r ∧
               p ∈ keys (declared_parameters r)) ∧
  (∀ p, p ∈ parameter_kinds →
     ∃ id r, registered sample_env !! id = Some r ∧
             p ∈ keys (declared_parameters r)).
Proof.
  assert (Hall : ∀ env, (load env).2 = None →
            ∀ p, p ∈ parameter_kinds →
              ∃ id r, registered env !! id = Some r ∧
                      p ∈ keys (declared_parameters r)).
  { intros env Hload. each_member.
    - declared_by env Hload "faith_pd".
    - declared_by env Hload "bray_curtis".
    - declared_by env Hload "pielou_evenness".
    - declared_by env Hload "alpha_passthrough".
    - declared_by env Hload "beta_passthrough".
    - declared_by env Hload "beta_phylogenetic_passthrough".
    - declared_by env Hload "beta_phylogenetic_passthrough".
    - declared_by env Hload "beta_phylogenetic_passthrough".
    - declared_by env Hload "beta_phylogenetic_meta_passthrough".
    - declared_by env Hload "beta_phylogenetic_meta_passthrough". }
  split_and!; [reflexivity | | exact Hall | exact (Hall sample_env sample_load)].
  intros env id r p H. by_registration H; simpl; revert p; each_member.
  all: vm_compute; repeat constructor.
Qed.

Lemma parameter_kinds_exact_witness :
  (load sample_env).2 = None ∧
  Forall (fun p => ∃ id r, registered sample_env !! id = Some r ∧
                           p ∈ keys (declared_parameters r))
    parameter_kinds ∧
  ∃ r, registered sample_env !! "beta_passthrough" = Some r ∧
    "pseudocount" ∈ keys (declared_parameters r) ∧
    "pseudocount" ∈ parameter_kinds.
Proof.
  assert (Hload : (load sample_env).2 = None) by (vm_compute; reflexivity).
  split_and!; [exact Hload | |].
  - apply Forall_forall. intros p Hp.
    exact (proj1 (proj2 (proj2 parameter_kinds_exact)) sample_env Hload p Hp).
  - destruct (registered sample_env !! "beta_passthrough") as [r|] eqn:H.
    + exists r. split; [reflexivity|].
      assert (Hp : "pseudocount" ∈ keys (declared_parameters r)).
      { pose proof H as H'. vm_compute in H'. injection H' as <-.
        apply list_elem_of_In. simpl. tauto. }
      split; [exact Hp|].
      exact (proj1 (proj2 parameter_kinds_exact) sample_env _ r _ H Hp).
    + vm_compute in H. discriminate H.
Defined.

Lemma ready_ns_ok env g : ready env g → ns_ok env g.
Proof. by intros [H _]. Qed.

Lemma global_str_bound g x s0 s :
  g !! x = Some (OStr s0) → global_str g x = inr s → s = s0.
Proof. unfold global_str, global. intros ->. simpl. by intros [= <-]. Qed.

Lemma METRICS_inv env g m k1 k2 l :
  ns_ok env g → METRICS env g m k1 k2 = inr l →
  ∃ t d, module_METRICS env m = Some t ∧ t !! k1 = Some d ∧ d !! k2 = Some l.
Proof.
  intros Hg. unfold METRICS, global.
  destruct (g !! m) as [o|] eqn:Hm; simpl; [|discriminate].
  destruct o as [|m0 m'| | |]; try discriminate.
  pose proof (Hg _ _ Hm) as Hb. simpl in Hb. subst m'.
  repeat case_match; try discriminate. intros [= <-]. eauto.
Qed.

(** From [H : registered env !! id = Some r] to one goal per registration
    call, as [by_registration], with the module's description strings in
    place of the names the call looked up. *)
Ltac by_ready H :=
  let k := fresh "kwargs" in
  let g := fresh "g" in
  let Hk := fresh "Hk" in
  let Hready := fresh "Hready" in
  let Hg := fresh "Hg" in
  let Hr := fresh "Hr" in
  let Hid := fresh "Hid" in
  apply registered_ready in H; destruct H as (k & g & Hk & Hready & Hr & Hid);
  pose proof (ready_ns_ok _ _ Hready) as Hg;
  apply list_elem_of_In in Hk;
  unfold plugin_setup, registration_calls in Hk; simpl in Hk;
  repeat (destruct Hk as [<-|Hk]); [..|destruct Hk];
  unfold_call Hr; run_call Hr; resolve_names Hg;
  destruct Hready as (_ & _ & _ & _ & _ & _ & Hjobs & Hthreads);
  repeat match goal with
    | E : global_str _ "threads_description" = inr ?s |- _ =>
        apply (global_str_bound _ _ _ _ Hthreads) in E; subst s
    | E : global_str _ "n_jobs_description" = inr ?s |- _ =>
        apply (global_str_bound _ _ _ _ Hjobs) in E; subst s
    end;
  simpl in Hid; try discriminate Hid;
  try match type of Hid with _ = ?id => subst id end; try clear Hid.

(** ** The shared parameter descriptions *)

(** Every [threads] parameter is described by the module's
    [threads_description] and every [n_jobs] parameter by its
    [n_jobs_description]; the third string the module assigns,
    [drop_undef_samples_description], describes no parameter of any
    registration. *)
Theorem shared_descriptions (env : Env) (id : string) (r : registration)
    (ds : list (string * string)) :
  registered env !! id = Some r →
  parameter_descriptions r = Some ds →
  (∀ d, dict_get ds "threads" = Some d → d = threads_description) ∧
  (∀ d, dict_get ds "n_jobs" = Some d → d = n_jobs_description) ∧
  (∀ p d, (p, d) ∈ ds → d ≠ drop_undef_samples_description).
Proof.
  intros H. by_ready H; simpl; intros [= <-].
  all: split_and!;
    [ intros d Hd; vm_compute in Hd;
      first [discriminate Hd | injection Hd as <-; vm_compute; reflexivity]
    | intros d Hd; vm_compute in Hd;
      first [discriminate Hd | injection Hd as <-; vm_compute; reflexivity]
    | each_item ].
  all: refine (bool_decide_unpack _ _); vm_compute; exact I.
Qed.

Lemma shared_descriptions_witness :
  ∃ r ds, registered sample_env !! "bray_curtis" = Some r ∧
    parameter_descriptions r = Some ds ∧
    dict_get ds "n_jobs" = Some n_jobs_description.
Proof.
  destruct (registered sample_env !! "bray_curtis") as [r|] eqn:H;
    [|vm_compute in H; discriminate H].
  destruct (parameter_descriptions r) as [ds|] eqn:Hds.
  - exists r, ds. split_and!; [reflexivity | exact Hds |].
    destruct (dict_get ds "n_jobs") as [d|] eqn:Hd.
    + f_equal.
      exact (proj1 (proj2 (shared_descriptions sample_env _ r ds H Hds)) d Hd).
    + vm_compute in H. injection H as <-. injection Hds as <-.
      vm_compute in Hd. discriminate Hd.
  - vm_compute in H. injection H as <-. discriminate Hds.
Defined.

(** ** Where the choices of a metric come from *)

(** [t[k1][k2]] of a [METRICS] table. *)
Definition metrics_entry (t : metrics) (k1 k2 : string) : option (list string) :=
  t !! k1 ≫= (.!! k2).

(** A [metric] parameter is a string restricted to the metrics the tables
    of the package list as not implemented here: those of
    [alpha.METRICS['NONPHYLO']['UNIMPL']] for alpha_passthrough, of
    [beta.METRICS['NONPHYLO']['UNIMPL']] for beta_passthrough and of
    [beta.METRICS['PHYLO']['UNIMPL']] for the two phylogenetic passthrough
    functions.  A [consolidation] parameter is restricted to the names in
    [CONSOLIDATIONS].  Only the passthrough functions have a [metric]. *)
Theorem metric_choices (env : Env) (id : string) (r : registration)
    (p : string) (t : primitive) :
  registered env !! id = Some r →
  dict_get (declared_parameters r) p = Some t →
  (p = "metric" →
     ∃ cs, t = Refine Str (Choices cs) ∧
       ((id = "alpha_passthrough" ∧
         metrics_entry (alpha_METRICS env) "NONPHYLO" "UNIMPL" = Some cs) ∨
        (id = "beta_passthrough" ∧
         metrics_entry (beta_METRICS env) "NONPHYLO" "UNIMPL" = Some cs) ∨
        ((id = "beta_phylogenetic_passthrough" ∨
          id = "beta_phylogenetic_meta_passthrough") ∧
         metrics_entry (beta_METRICS env) "PHYLO" "UNIMPL" = Some cs))) ∧
  (p = "consolidation" → t = Refine Str (Choices (CONSOLIDATIONS env))).
Proof.
  intros H. by_ready H; unfold declared_parameters; simpl.
  all: repeat match goal with
    | E : METRICS _ _ _ _ _ = inr _ |- _ =>
        apply (METRICS_inv _ _ _ _ _ _ Hg) in E;
        destruct E as (? & ? & [= <-] & ? & ?)
    end.
  all: intros Hd; split; intros ->; vm_compute in Hd; try discriminate Hd.
  all: injection Hd as <-; try reflexivity.
  all: eexists; split; [reflexivity|]; unfold metrics_entry.
  1: left. 2: right; left. 3-4: right; right.
  all: split; [auto|].
  all: match goal with
    | E : _ !! _ = Some _ |- _ => rewrite E; simpl; assumption
    end.
Qed.

(** ** What a complete import has found *)

(** What a registration call looks up in the rest of the package:
    [module.name], [citations[key]] or [module.METRICS[k1][k2]]. *)
Inductive dependency : Type :=
  | Attribute (module name : string)
  | CitationKey (key : string)
  | MetricsEntry (module k1 k2 : string).

Definition available (env : Env) (d : dependency) : Prop :=
  match d with
  | Attribute m f => f ∈ module_functions env m
  | CitationKey key => is_Some (citations_bib env !! key)
  | MetricsEntry m k1 k2 =>
      match module_METRICS env m with
      | Some t => is_Some (metrics_entry t k1 k2)
      | None => False
      end
  end.

#[global] Instance available_dec env d : Decision (available env d).
Proof.
  destruct d as [m f|key|m k1 k2]; simpl; [apply _ | apply _ |].
  destruct (module_METRICS env m); apply _.
Defined.

(** The exception the lookup of a missing dependency raises. *)
Definition error_of (env : Env) (d : dependency) : exn :=
  match d with
  | Attribute m f => AttributeError m f
  | CitationKey key => KeyError key
  | MetricsEntry m k1 k2 =>
      match module_METRICS env m with
      | None => AttributeError m "METRICS"
      | Some t =>
          match t !! k1 with
          | None => KeyError k1
          | Some _ => KeyError k2
          end
      end
  end.

(** The first dependency of the list that the environment lacks. *)
Fixpoint first_missing (env : Env) (ds : list dependency) : option dependency :=
  match ds with
  | [] => None
  | d :: ds' => if decide (available env d) then first_missing env ds' else Some d
  end.

(** The dependencies of the twelve calls, each in the order the call
    evaluates them. *)
Definition dependencies : list (list dependency) :=
  [ [ Attribute "alpha" "faith_pd";
      Attribute "examples" "faith_pd_example";
      CitationKey "faith1992conservation";
      CitationKey "armstrong2021faithspd" ];
    [ Attribute "alpha" "observed_features";
      Attribute "examples" "observed_features_example" ];
    [ Attribute "alpha" "pielou_evenness";
      Attribute "examples" "pielou_evenness_example";
      Attribute "examples" "pielou_drop_example";
      CitationKey "pielou1966measurement" ];
    [ Attribute "alpha" "shannon_entropy";
      Attribute "examples" "shannon_entropy_example";
      Attribute "examples" "shannon_drop_example";
      CitationKey "shannon1948communication" ];
    [ Attribute "beta" "bray_curtis";
      Attribute "examples" "bray_curtis_example";
      Attribute "examples" "bray_curtis_n_jobs_example";
      Attribute "examples" "bray_curtis_auto_jobs_example";
      CitationKey "sorensen1948method" ];
    [ Attribute "beta" "jaccard";
      Attribute "examples" "jaccard_example";
      Attribute "examples" "jaccard_n_jobs_example";
      Attribute "examples" "jaccard_auto_jobs_example";
      CitationKey "jaccard1908nouvelles" ];
    [ Attribute "beta" "unweighted_unifrac";
      Attribute "examples" "u_u_example";
      Attribute "examples" "u_u_n_threads_example";
      Attribute "examples" "u_u_auto_threads_example";
      Attribute "examples" "u_u_bypass_tips_example";
      CitationKey "lozupone2005unifrac";
      CitationKey "lozupone2007unifrac";
      CitationKey "hamady2010unifrac";
      CitationKey "lozupone2011unifrac";
      CitationKey "mcdonald2018unifrac" ];
    [ Attribute "beta" "weighted_unifrac";
      Attribute "examples" "w_u_example";
      Attribute "examples" "w_u_n_threads_example";
      Attribute "examples" "w_u_auto_threads_example";
      Attribute "examples" "w_u_bypass_tips_example";
      CitationKey "lozupone2005unifrac";
      CitationKey "lozupone2007unifrac";
      CitationKey "hamady2010unifrac";
      CitationKey "lozupone2011unifrac";
      CitationKey "mcdonald2018unifrac" ];
    [ Attribute "alpha" "alpha_passthrough";
      MetricsEntry "alpha" "NONPHYLO" "UNIMPL";
      Attribute "examples" "alpha_passthrough_example" ];
    [ Attribute "beta" "beta_passthrough";
      MetricsEntry "beta" "NONPHYLO" "UNIMPL";
      Attribute "examples" "beta_passthrough_example";
      Attribute "examples" "beta_passthrough_n_jobs_example";
      Attribute "examples" "beta_passthrough_auto_jobs_example";
      Attribute "examples" "beta_passthrough_pseudocount_example" ];
    [ Attribute "beta" "beta_phylogenetic_passthrough";
      MetricsEntry "beta" "PHYLO" "UNIMPL";
      Attribute "examples" "beta_phylo_passthrough_example";
      Attribute "examples" "beta_phylo_passthrough_n_threads_example";
      Attribute "examples" "beta_phylo_passthrough_auto_threads_example";
      Attribute "examples" "beta_phylo_passthrough_bypass_tips_example";
      Attribute "examples" "beta_phylo_passthrough_variance_adjusted_example";
      Attribute "examples" "beta_phylo_passthrough_min_generalized_unifrac_example";
      Attribute "examples" "beta_phylo_passthrough_generalized_unifrac_example";
      CitationKey "lozupone2005unifrac";
      CitationKey "lozupone2007unifrac";
      CitationKey "hamady2010unifrac";
      CitationKey "lozupone2011unifrac";
      CitationKey "mcdonald2018unifrac";
      CitationKey "chang2011variance";
      CitationKey "chen2012genUnifrac";
      CitationKey "sfiligoi2022unifrac" ];
    [ Attribute "beta" "beta_phylogenetic_meta_passthrough";
      MetricsEntry "beta" "PHYLO" "UNIMPL";
      Attribute "examples" "beta_phylo_meta_passthrough_example";
      Attribute "examples" "beta_phylo_meta_weights_example";
      Attribute "examples" "beta_phylo_meta_consolidation_example";
      CitationKey "lozupone2005unifrac";
      CitationKey "lozupone2007unifrac";
      CitationKey "hamady2010unifrac";
      CitationKey "lozupone2011unifrac";
      CitationKey "mcdonald2018unifrac";
      CitationKey "chang2011variance";
      CitationKey "chen2012genUnifrac";
      CitationKey "lozupone2008metaunifrac" ] ].

Definition outcome {A : Type} (x : result A) : option exn :=
  match x with
  | inl e => Some e
  | inr _ => None
  end.

Lemma first_missing_app env l1 l2 :
  first_missing env (l1 ++ l2) =
  match first_missing env l1 with
  | Some d => Some d
  | None => first_missing env l2
  end.
Proof.
  induction l1 as [|d l1 IH]; simpl; [done|]. by case_decide.
Qed.

Lemma first_missing_None env ds :
  first_missing env ds = None ↔ ∀ d, d ∈ ds → available env d.
Proof.
  induction ds as [|d ds IH]; simpl.
  - split; [|done]. intros _ d Hd. by apply elem_of_nil in Hd.
  - case_decide as Hd.
    + rewrite IH. split.
      * intros H d' [->|?]%elem_of_cons; auto.
      * intros H d' Hd'. apply H, elem_of_cons. by right.
    + split; [discriminate|]. intros H. destruct Hd. apply H, elem_of_cons.
      by left.
Qed.

Section Outcome.
Variable env : Env.
Variable g : namespace.
Hypothesis Hready : ready env g.

(** The calls so far and their dependencies, one lookup at a time. *)
Definition follows {A : Type} (x : result A) (ds : list dependency) : Prop :=
  outcome x = error_of env <$> first_missing env ds.

Lemma follows_ret {A : Type} (x : A) : follows (mret x) [].
Proof. reflexivity. Qed.

Lemma follows_attr {A : Type} m f (k : callable → result A) ds :
  m ∈ ["alpha"; "beta"; "examples"] →
  (∀ c, follows (k c) ds) → follows (attr env g m f ≫= k) (Attribute m f :: ds).
Proof.
  intros Hm Hk. destruct Hready as (_ & Ha & Hb & He & _).
  assert (g !! m = Some (OImported "." m)) as Hgm.
  { apply list_elem_of_In in Hm. simpl in Hm.
    destruct Hm as [<-|[<-|[<-|[]]]]; assumption. }
  unfold follows, attr, global. rewrite Hgm. simpl.
  case_decide; simpl; [apply Hk | reflexivity].
Qed.

Lemma follows_cite {A : Type} key (k : CitationRecord → result A) ds :
  (∀ c, follows (k c) ds) → follows (cite g key ≫= k) (CitationKey key :: ds).
Proof.
  intros Hk. destruct Hready as (_ & _ & _ & _ & _ & Hc & _).
  unfold follows, cite, global. rewrite Hc. simpl.
  destruct (citations_bib env !! key) as [c|] eqn:Hkey; simpl;
    [apply Hk | reflexivity].
Qed.

Lemma follows_METRICS {A : Type} m k1 k2 (k : list string → result A) ds :
  m ∈ ["alpha"; "beta"] →
  (∀ l, follows (k l) ds) →
  follows (METRICS env g m k1 k2 ≫= k) (MetricsEntry m k1 k2 :: ds).
Proof.
  intros Hm Hk. destruct Hready as (_ & Ha & Hb & _).
  assert (g !! m = Some (OImported "." m)) as Hgm.
  { apply list_elem_of_In in Hm. simpl in Hm.
    destruct Hm as [<-|[<-|[]]]; assumption. }
  unfold follows, METRICS, global. rewrite Hgm. simpl.
  unfold available_dec, metrics_entry.
  destruct (module_METRICS env m) as [t|] eqn:Ht; simpl; rewrite ?Ht;
    [|reflexivity].
  destruct (t !! k1) as [d|] eqn:Hd; simpl; rewrite ?Ht, ?Hd; [|reflexivity].
  destruct (d !! k2) as [l|]; simpl; rewrite ?Ht, ?Hd;
    [apply Hk | reflexivity].
Qed.

Lemma follows_global_str {A : Type} x (k : string → result A) ds :
  x ∈ ["n_jobs_description"; "threads_description"] →
  (∀ s, follows (k s) ds) → follows (global_str g x ≫= k) ds.
Proof.
  intros Hx Hk. destruct Hready as (_ & _ & _ & _ & _ & _ & Hj & Ht).
  apply list_elem_of_In in Hx. simpl in Hx.
  unfold follows, global_str, global.
  destruct Hx as [<-|[<-|[]]]; [rewrite Hj | rewrite Ht]; simpl; apply Hk.
Qed.

Lemma follows_imported {A : Type} (k : unit → result A) ds :
  (∀ u, follows (k u) ds) → follows (imported g "CONSOLIDATIONS" ≫= k) ds.
Proof.
  intros Hk. destruct Hready as (_ & _ & _ & _ & Hc & _).
  unfold follows, imported, global. rewrite Hc. simpl. apply Hk.
Qed.

End Outcome.

Ltac follow_call :=
  repeat first
    [ apply follows_ret
    | apply follows_attr; [assumption | apply list_elem_of_In; simpl; tauto | intros ?]
    | apply follows_cite; [assumption | intros ?]
    | apply follows_METRICS; [assumption | apply list_elem_of_In; simpl; tauto | intros ?]
    | apply follows_global_str; [assumption | apply list_elem_of_In; simpl; tauto | intros ?]
    | apply follows_imported; [assumption | intros ?] ].

(** Each call ends with the exception of its first missing dependency, or
    completes when none is missing. *)
Lemma calls_follow (env : Env) :
  Forall2 (fun k ds => ∀ g, ready env g → follows env (k env g) ds)
    (registration_calls plugin_setup) dependencies.
Proof.
  unfold plugin_setup, dependencies. simpl.
  repeat (apply Forall2_cons; split); try apply Forall2_nil_2.
  all: intros g Hready.
  all: match goal with |- follows _ (?k _ _) _ => unfold k end.
  all: follow_call.
Qed.

Lemma register_outcome (env : Env)
    (ks : list (Env → namespace → result registration))
    (dss : list (list dependency)) (g : namespace) (p : Plugin) :
  Forall2 (fun k ds => ∀ g, ready env g → follows env (k env g) ds) ks dss →
  ready env g → plugin_of g = Some p →
  (exec_block env (register_all ks) g).2 =
  error_of env <$> first_missing env (concat dss).
Proof.
  intros Hks. revert g p.
  induction Hks as [|k ds ks dss Hk _ IH]; intros g p Hg Hp; [done|].
  simpl. rewrite (plugin_of_Some _ _ Hp), first_missing_app.
  specialize (Hk g Hg). unfold follows in Hk.
  destruct (k env g) as [e|r]; simpl in *.
  - destruct (first_missing env ds); [done | discriminate Hk].
  - destruct (first_missing env ds); [discriminate Hk|].
    eapply IH; [by apply ready_register | apply plugin_of_insert].
Qed.

(** With the namespace ready, the calls end with the exception of the
    first thing, in source order, that they look up and the package lacks:
    [AttributeError] for a function or an example, [KeyError] for a
    citation or a metrics entry. *)
Lemma load_first_missing (env : Env) :
  (load env).2 = error_of env <$> first_missing env (concat dependencies).
Proof.
  unfold load.
  rewrite <- (take_drop 12 plugin_setup), exec_block_app.
  destruct (ready_after_assignments env) as (Hok & Hready & p0 & Hp0 & _).
  destruct (exec_block env (take 12 plugin_setup) ∅) as [g12 [e|]];
    [discriminate Hok|]. cbn [fst snd] in Hready, Hp0.
  rewrite registrations_last.
  exact (register_outcome env _ _ g12 p0 (calls_follow env) Hready Hp0).
Qed.

(** An import that completes has found everything the twelve calls look
    up: the twelve functions in [alpha] and [beta], the thirty-five
    examples, every citation key and the three [METRICS] entries.  If the
    package lacks one of them, the import raises. *)
Theorem loaded_dependencies (env : Env) :
  (load env).2 = None → ∀ d, d ∈ concat dependencies → available env d.
Proof.
  rewrite load_first_missing, <- first_missing_None.
  by destruct (first_missing env (concat dependencies)).
Qed.

(** The sample environment lacks nothing; without the examples module the
    import stops at the first example, after [alpha.faith_pd] was found. *)
Definition without_examples (env : Env) : Env :=
  {| version := version env;
     alpha_functions := alpha_functions env;
     alpha_METRICS := alpha_METRICS env;
     beta_functions := beta_functions env;
     beta_METRICS := beta_METRICS env;
     examples_functions := ∅;
     citations_bib := citations_bib env;
     CONSOLIDATIONS := CONSOLIDATIONS env |}.

Lemma load_without_examples :
  (load (without_examples sample_env)).2 =
    Some (AttributeError "examples" "faith_pd_example") ∧
  registered (without_examples sample_env) = ∅.
Proof. split; vm_compute; reflexivity. Qed.

Lemma loaded_dependencies_witness :
  (load sample_env).2 = None ∧
  ∀ d, d ∈ concat dependencies → available sample_env d.
Proof.
  assert (H : (load sample_env).2 = None) by (vm_compute; reflexivity).
  split; [exact H|].
  exact (loaded_dependencies sample_env H).
Defined.

Lemma metric_choices_witness :
  ∃ r t, registered sample_env !! "alpha_passthrough" = Some r ∧
    dict_get (declared_parameters r) "metric" = Some t ∧
    t = Refine Str (Choices ["ace"; "chao1"]).
Proof.
  destruct (registered sample_env !! "alpha_passthrough") as [r|] eqn:H;
    [|vm_compute in H; discriminate H].
  destruct (dict_get (declared_parameters r) "metric") as [t|] eqn:Ht.
  - exists r, t. split_and!; [reflexivity | exact Ht |].
    destruct (proj1 (metric_choices sample_env _ r _ t H Ht) eq_refl)
      as (cs & -> & [[_ Hcs]|[[Hid _]|[[Hid|Hid] _]]]);
      try discriminate Hid.
    vm_compute in Hcs. by injection Hcs as <-.
  - vm_compute in H. injection H as <-. vm_compute in Ht. discriminate Ht.
Defined.

(** ** The plugin descriptor *)

(** Whenever the plugin exists, before or after any registration, it is
    the plugin "diversity-lib" of the package [q2_diversity_lib], and its
    version is the version of the package. *)
Theorem plugin_descriptor (env : Env) (n : nat) (p : Plugin) :
  plugin_of (namespace_after env n) = Some p →
  plugin_name p = "diversity-lib" ∧
  plugin_version p = version env ∧
  plugin_website p = "https://github.com/qiime2/q2-diversity-lib" ∧
  plugin_package p = "q2_diversity_lib".
Proof.
  intros Hp.
  destruct (decide (n < 9)%nat) as [Hn|Hn].
  { rewrite before_construction in Hp by done. discriminate Hp. }
  destruct (plugin_of (namespace_after env 9)) as [p0|] eqn:H9;
    [|vm_compute in H9; discriminate H9].
  destruct (records_persist env 9 n p0) as (p' & Hp' & Hd & _);
    [lia | exact H9 |].
  rewrite Hp in Hp'. injection Hp' as <-.
  vm_compute in H9. injection H9 as <-.
  destruct Hd as (Hname & Hversion & Hweb & _ & Hpkg & _).
  by rewrite <- Hname, <- Hversion, <- Hweb, <- Hpkg.
Qed.

Lemma plugin_descriptor_witness :
  ∃ p, plugin_of (namespace_after sample_env 24) = Some p ∧
    plugin_name p = "diversity-lib" ∧
    plugin_version p = version sample_env ∧
    plugin_website p = "https://github.com/qiime2/q2-diversity-lib" ∧
    plugin_package p = "q2_diversity_lib".
Proof.
  destruct (plugin_of (namespace_after sample_env 24)) as [p|] eqn:H.
  - exists p. split; [reflexivity|].
    exact (plugin_descriptor sample_env 24 p H).
  - vm_compute in H. discriminate H.
Defined.

(** ** Citations *)

(** The five references every UniFrac registration starts its citations
    with. *)
Definition unifrac_core : list string :=
  [ "lozupone2005unifrac"; "lozupone2007unifrac"; "hamady2010unifrac";
    "lozupone2011unifrac"; "mcdonald2018unifrac" ].

(** The registrations without citations are observed_features and the two
    non-phylogenetic passthrough functions.  Every function of [beta] that
    takes a phylogeny cites first the five UniFrac references, in the same
    order. *)
Theorem citations_by_kind (env : Env) (id : string) (r : registration) :
  registered env !! id = Some r →
  (citations r = None ↔
     id ∈ ["observed_features"; "alpha_passthrough"; "beta_passthrough"]) ∧
  (c_module (function r) = "beta" → takes_phylogeny r →
     ∃ cs, citations r = Some cs ∧
       Forall2 (fun key c => citations_bib env !! key = Some c)
         unifrac_core (take 5 cs)).
Proof.
  intros H. by_registration H; unfold takes_phylogeny; simpl.
  all: split;
    [ split;
      [ intros Hc; first [discriminate Hc | apply list_elem_of_In; simpl; tauto]
      | intros Hin; first
          [ reflexivity
          | apply list_elem_of_In in Hin; simpl in Hin;
            destruct Hin as [Hin|[Hin|[Hin|[]]]]; discriminate Hin ] ]
    | intros Hm Hp; first
        [ discriminate Hm
        | exfalso; destruct Hp as [Hp|Hp]; apply list_elem_of_In in Hp;
          simpl in Hp; destruct Hp as [Hp|[]]; discriminate Hp
        | eexists; split; [reflexivity|]; simpl;
          repeat (apply Forall2_cons; split); try apply Forall2_nil_2;
          assumption ] ].
Qed.

Lemma citations_by_kind_witness :
  ∃ r, registered sample_env !! "weighted_unifrac" = Some r ∧
    (citations r = None ↔
       "weighted_unifrac" ∈
         ["observed_features"; "alpha_passthrough"; "beta_passthrough"]) ∧
    (c_module (function r) = "beta" → takes_phylogeny r →
       ∃ cs, citations r = Some cs ∧
         Forall2 (fun key c => citations_bib sample_env !! key = Some c)
           unifrac_core (take 5 cs)).
Proof.
  destruct (registered sample_env !! "weighted_unifrac") as [r|] eqn:H.
  - exists r. split; [reflexivity|].
    exact (citations_by_kind sample_env _ r H).
  - vm_compute in H. discriminate H.
Defined.
